(** * Liquidity Zone Reversion Bot (lzb_bot_v2.py): signal evaluation and
      order execution, embedded in Rocq.

    The Python program works on IEEE floating-point numbers, held either in
    Python [float] objects or in numpy/pandas [float64] cells.  The embedding
    keeps what the decision logic depends on:

    - the special values: [NaN] (pandas' "undefined" cell), and the two
      infinities that numpy produces when it divides by zero;
    - the difference between a numpy division (which yields an infinity or
      [NaN] on a zero divisor) and a Python [float] division (which raises
      [ZeroDivisionError]);
    - comparisons, which are false as soon as one side is [NaN].

    Finite values are exact rationals: rounding is not modelled, and zero
    carries no sign (a division of a non-zero number by zero takes the sign
    of the numerator, as IEEE does for a divisor [+0.0]).  Finite results
    are kept in lowest terms ([Qred]) so that equal numbers are equal
    terms. *)

From Stdlib Require Import String QArith Qabs Qreduction Lqa ZArith Lia Bool Arith List.
Import ListNotations.

Local Open Scope Q_scope.

(* ------------------------------------------------------------------ *)
(** ** Numbers *)

Inductive num : Type :=
| Fin (q : Q)
| PInf
| NInf
| NaN.

Definition of_Q (q : Q) : num := Fin (Qred q).
Definition of_Z (z : Z) : num := Fin (inject_Z z).

Definition Qltb (a b : Q) : bool := negb (Qle_bool b a).

Definition isnan (x : num) : bool :=
  match x with NaN => true | _ => false end.

Definition neg (x : num) : num :=
  match x with
  | Fin q => Fin (Qred (- q))
  | PInf => NInf
  | NInf => PInf
  | NaN => NaN
  end.

Definition add (x y : num) : num :=
  match x, y with
  | NaN, _ | _, NaN => NaN
  | Fin a, Fin b => Fin (Qred (a + b))
  | PInf, NInf | NInf, PInf => NaN
  | PInf, _ | _, PInf => PInf
  | NInf, _ | _, NInf => NInf
  end.

Definition sub (x y : num) : num := add x (neg y).

(** The infinity [s] multiplied by the sign of [q]: [NaN] when [q] is zero. *)
Definition inf_times (s : num) (q : Q) : num :=
  if Qltb 0 q then s
  else if Qltb q 0 then neg s
  else NaN.

Definition mul (x y : num) : num :=
  match x, y with
  | NaN, _ | _, NaN => NaN
  | Fin a, Fin b => Fin (Qred (a * b))
  | PInf, Fin b | Fin b, PInf => inf_times PInf b
  | NInf, Fin b | Fin b, NInf => inf_times NInf b
  | PInf, PInf | NInf, NInf => PInf
  | PInf, NInf | NInf, PInf => NInf
  end.

(** numpy's [/] on float64: a zero divisor gives an infinity of the sign of
    the numerator, and [NaN] for 0/0. *)
Definition div (x y : num) : num :=
  match x, y with
  | NaN, _ | _, NaN => NaN
  | Fin a, Fin b =>
      if Qeq_bool b 0 then inf_times PInf a else Fin (Qred (a / b))
  | Fin _, (PInf | NInf) => Fin 0
  | PInf, Fin b => if Qltb b 0 then NInf else PInf
  | NInf, Fin b => if Qltb b 0 then PInf else NInf
  | (PInf | NInf), (PInf | NInf) => NaN
  end.

Definition nabs (x : num) : num :=
  match x with
  | Fin q => Fin (Qred (Qabs q))
  | PInf | NInf => PInf
  | NaN => NaN
  end.

(** Comparisons: false whenever an operand is [NaN]. *)
Definition lt (x y : num) : bool :=
  match x, y with
  | NaN, _ | _, NaN => false
  | Fin a, Fin b => Qltb a b
  | NInf, (Fin _ | PInf) => true
  | Fin _, PInf => true
  | _, _ => false
  end.

Definition le (x y : num) : bool :=
  match x, y with
  | NaN, _ | _, NaN => false
  | Fin a, Fin b => Qle_bool a b
  | NInf, _ => true
  | _, PInf => true
  | _, _ => false
  end.

Definition gt (x y : num) : bool := lt y x.
Definition ge (x y : num) : bool := le y x.

(** [np.maximum] and [np.minimum] propagate [NaN]. *)
Definition maximum (x y : num) : num :=
  if isnan x || isnan y then NaN else if lt x y then y else x.

Definition minimum (x y : num) : num :=
  if isnan x || isnan y then NaN else if lt y x then y else x.

Definition zero : num := of_Z 0.
Definition one : num := of_Z 1.
Definition hundred : num := of_Z 100.

(* ------------------------------------------------------------------ *)
(** ** pandas Series operations used by the pipeline *)

(** [series.diff()]: the first cell is undefined. *)
Fixpoint diff_from (prev : num) (xs : list num) : list num :=
  match xs with
  | [] => []
  | x :: xs' => sub x prev :: diff_from x xs'
  end.

Definition diff (series : list num) : list num :=
  match series with
  | [] => []
  | x :: xs => NaN :: diff_from x xs
  end.

(** [s.where(cond, other)]: keeps the cells where [cond] holds. *)
Definition where_ (cond : num -> bool) (other : num) (s : list num) : list num :=
  map (fun x => if cond x then x else other) s.

Definition sum (xs : list num) : num := fold_left add xs zero.

Definition mean (xs : list num) : num :=
  div (sum xs) (of_Z (Z.of_nat (length xs))).

(** The trailing window of [window] cells that ends at index [i]. *)
Definition window_at (window : nat) (xs : list num) (i : nat) : list num :=
  firstn window (skipn (i + 1 - window) xs).

(** [s.rolling(window).mean()]: undefined until [window] cells are
    available; a window holding an undefined cell is undefined.  The cells
    served by the exchange are numbers or missing values, never infinities,
    so the mean of a window is the sum of its cells over their number. *)
Definition rolling_mean_at (window : nat) (xs : list num) (i : nat) : num :=
  if (window <=? i + 1)%nat then mean (window_at window xs i) else NaN.

Definition rolling_mean (window : nat) (xs : list num) : list num :=
  map (rolling_mean_at window xs) (seq 0 (length xs)).

Fixpoint zip_with (f : num -> num -> num) (xs ys : list num) : list num :=
  match xs, ys with
  | x :: xs', y :: ys' => f x y :: zip_with f xs' ys'
  | _, _ => []
  end.

(** The two rolling averages of [calculate_rsi]. *)
Definition avg_gain (series : list num) (period : nat) : list num :=
  let delta := diff series in
  rolling_mean period (where_ (fun d => gt d zero) zero delta).

Definition avg_loss (series : list num) (period : nat) : list num :=
  let delta := diff series in
  rolling_mean period (map neg (where_ (fun d => lt d zero) zero delta)).

Definition calculate_rsi (series : list num) (period : nat) : list num :=
  let gain := avg_gain series period in
  let loss := avg_loss series period in
  let rs := zip_with div gain loss in
  map (fun r => sub hundred (div hundred (add one r))) rs.

(* ------------------------------------------------------------------ *)
(** ** Candles and the enriched rows of [get_data] *)

(** One raw OHLCV sample, as the exchange returns it. *)
Module Candle.

Record t : Type := make {
  timestamp : Z;
  open : num;
  high : num;
  low : num;
  close : num;
  volume : num
}.

End Candle.

(** One row of the DataFrame built by [get_data]. *)
Record Row : Type := mkRow {
  timestamp : Z;
  open : num;
  high : num;
  low : num;
  close : num;
  volume : num;
  body : num;
  upper_wick : num;
  lower_wick : num;
  wick_ratio_upper : num;
  wick_ratio_lower : num;
  avg_volume : num;
  sma_200 : num;
  rsi : num
}.

(** The literal [1e-8]. *)
Definition eps : num := Fin (1 # 100000000).

(** The columns computed cell by cell from one candle, next to the three
    rolling columns. *)
Definition enrich_row (c : Candle.t) (avg_volume sma_200 rsi : num) : Row :=
  let body := nabs (sub (Candle.close c) (Candle.open c)) in
  let upper_wick := sub (Candle.high c) (maximum (Candle.open c) (Candle.close c)) in
  let lower_wick := sub (minimum (Candle.open c) (Candle.close c)) (Candle.low c) in
  {| timestamp := Candle.timestamp c;
     open := Candle.open c;
     high := Candle.high c;
     low := Candle.low c;
     close := Candle.close c;
     volume := Candle.volume c;
     body := body;
     upper_wick := upper_wick;
     lower_wick := lower_wick;
     wick_ratio_upper := div upper_wick (add body eps);
     wick_ratio_lower := div lower_wick (add body eps);
     avg_volume := avg_volume;
     sma_200 := sma_200;
     rsi := rsi |}.

Fixpoint rows_from (i : nat) (ohlcv : list Candle.t)
    (avg_volume sma_200 rsi : list num) : list Row :=
  match ohlcv with
  | [] => []
  | c :: rest =>
      enrich_row c (nth i avg_volume NaN) (nth i sma_200 NaN) (nth i rsi NaN)
      :: rows_from (S i) rest avg_volume sma_200 rsi
  end.

(** The DataFrame of [get_data], once the candles are fetched. *)
Definition DataFrame (ohlcv : list Candle.t) : list Row :=
  let close := map Candle.close ohlcv in
  let volume := map Candle.volume ohlcv in
  rows_from 0 ohlcv
    (rolling_mean 20 volume) (rolling_mean 200 close) (calculate_rsi close 14).

(* ------------------------------------------------------------------ *)
(** ** Configuration, collaborators and program state *)

Record Config : Type := {
  SYMBOL : string;
  TIMEFRAME : string;
  RISK_PERCENT : num;
  STOP_LOSS_PCT : num;
  TAKE_PROFIT_RATIO : num;
  MIN_VOLUME_FACTOR : num;
  RSI_OVERBOUGHT : Z;
  RSI_OVERSOLD : Z;
  WICK_RATIO : num;
  PAPER_TRADING : bool;
  TELEGRAM_BOT_TOKEN : option string;
  TELEGRAM_CHAT_ID : option string
}.

(** The defaults of the CONFIGURATION block. *)
Definition default_config : Config := {|
  SYMBOL := "ETH/USDT";
  TIMEFRAME := "15m";
  RISK_PERCENT := of_Z 1;
  STOP_LOSS_PCT := Fin (12 # 10);
  TAKE_PROFIT_RATIO := Fin (18 # 10);
  MIN_VOLUME_FACTOR := of_Z 1;
  RSI_OVERBOUGHT := 75;
  RSI_OVERSOLD := 25;
  WICK_RATIO := of_Z 2;
  PAPER_TRADING := true;
  TELEGRAM_BOT_TOKEN := None;
  TELEGRAM_CHAT_ID := None
|}.

Inductive exn : Type :=
| FetchError
| OrderError
| RequestError
| IndexError
| ZeroDivisionError
| KeyError
| TypeError.

(** The order structure returned for an accepted order, of which the
    program reads the entry ['average']: a number, [None], or no such entry. *)
Inductive Order : Type :=
| Filled (average : num)
| NoAverage
| NoAverageKey.

(** The outside world: what each collaborator answers to the call made at a
    given tick ([None]: the call raises).  Every call advances the clock, so
    two calls with the same arguments may be answered differently.

    An answer [Some ohlcv] of [fetch_ohlcv] stands for a series that loads
    into the DataFrame of [get_data]: rows of six numbers whose timestamps
    are epoch milliseconds that [pd.to_datetime] can convert.  The
    conversion then only labels the rows, which keep their order. *)
Record Exchange : Type := {
  fetch_ohlcv : nat -> string -> string -> nat -> option (list Candle.t);
  fetch_balance : nat -> option (string -> option num);
  create_market_buy_order : nat -> string -> num -> option Order;
  create_market_sell_order : nat -> string -> num -> option Order;
  requests_post : nat -> bool
}.

Inductive Trend : Type := bullish | bearish | unknown.

Definition Trend_eqb (a b : Trend) : bool :=
  match a, b with
  | bullish, bullish | bearish, bearish | unknown, unknown => true
  | _, _ => false
  end.

Inductive LogMsg : Type :=
| TelegramFailed (e : exn)
| DailyTrendError (e : exn)
| BalanceFetchFailed (e : exn)
| PaperTrade (side : string) (amount : num) (symbol : string)
| LiveOrderPlaced (side : string) (amount : num) (symbol : string)
| OrderFailed (e : exn)
| SkippedLowVolume
| SkippedBelowSMA
| BullishReversionSignal
| BearishReversionSignal
| SignalCheckError (e : exn).

Inductive Alert : Type :=
| PaperAlert (side : string) (amount : num) (symbol : string)
| LiveAlert (side : string) (amount : num) (symbol : string) (sl_price tp_price : num)
| OrderFailedAlert (e : exn).

(** A live order handed to the exchange: side, symbol, amount. *)
Definition Submission : Type := (string * string * num)%type.

Record State : Type := mkState {
  clock : nat;
  submitted : list Submission;
  posted : list Alert;
  logged : list LogMsg
}.

Definition initial_state : State :=
  {| clock := 0; submitted := []; posted := []; logged := [] |}.

(** ** A state and exception monad *)

Inductive res (A : Type) : Type :=
| Ok (a : A)
| Raise (e : exn).
Arguments Ok {A} a.
Arguments Raise {A} e.

Definition M (A : Type) : Type := State -> res A * State.

Definition ret {A} (a : A) : M A := fun s => (Ok a, s).

Definition raise {A} (e : exn) : M A := fun s => (Raise e, s).

Definition bind {A B} (m : M A) (k : A -> M B) : M B :=
  fun s =>
    match m s with
    | (Ok a, s') => k a s'
    | (Raise e, s') => (Raise e, s')
    end.

(** [try: m except Exception as e: handler e] *)
Definition try_except {A} (m : M A) (handler : exn -> M A) : M A :=
  fun s =>
    match m s with
    | (Ok a, s') => (Ok a, s')
    | (Raise e, s') => handler e s'
    end.

Declare Scope monad_scope.
Delimit Scope monad_scope with monad.
Notation "x <- m ;; k" := (bind m (fun x => k))
  (at level 61, m at next level, right associativity) : monad_scope.
Notation "m ;; k" := (bind m (fun _ => k))
  (at level 61, right associativity) : monad_scope.
Local Open Scope monad_scope.

Definition tick : M nat :=
  fun s => (Ok (clock s),
            {| clock := S (clock s); submitted := submitted s;
               posted := posted s; logged := logged s |}).

Definition log (m : LogMsg) : M unit :=
  fun s => (Ok tt,
            {| clock := clock s; submitted := submitted s;
               posted := posted s; logged := logged s ++ [m] |}).

Definition record_post (a : Alert) : M unit :=
  fun s => (Ok tt,
            {| clock := clock s; submitted := submitted s;
               posted := posted s ++ [a]; logged := logged s |}).

Definition record_submission (o : Submission) : M unit :=
  fun s => (Ok tt,
            {| clock := clock s; submitted := submitted s ++ [o];
               posted := posted s; logged := logged s |}).

(** Lifts a collaborator's answer: [None] raises [e]. *)
Definition answer {A} (e : exn) (o : option A) : M A :=
  match o with
  | Some a => ret a
  | None => raise e
  end.

(** Python's truth value of an optional string setting. *)
Definition truthy (o : option string) : bool :=
  match o with
  | Some s => negb (String.eqb s "")
  | None => false
  end.

(** [df.iloc[k]] for a row position [k], negative positions counting from
    the end; out of range raises [IndexError]. *)
Definition iloc (df : list Row) (k : Z) : M Row :=
  let n := Z.of_nat (length df) in
  let i := if (k <? 0)%Z then (n + k)%Z else k in
  if (i <? 0)%Z then raise IndexError
  else answer IndexError (nth_error df (Z.to_nat i)).

(** [order['average']]: a missing entry raises. *)
Definition getitem_average (order : Order) : M (option num) :=
  match order with
  | Filled average => ret (Some average)
  | NoAverage => ret None
  | NoAverageKey => raise KeyError
  end.

(** Python's [*] on the value read from the order and a [float]: [None]
    raises. *)
Definition py_mul (x : option num) (y : num) : M num :=
  match x with
  | Some p => ret (mul p y)
  | None => raise TypeError
  end.

(** Python's [/] on two [float] objects: a zero divisor raises. *)
Definition py_truediv (x y : num) : M num :=
  match y with
  | Fin b => if Qeq_bool b 0 then raise ZeroDivisionError else ret (div x y)
  | _ => ret (div x y)
  end.

(** The dictionary returned by [check_signal]. *)
Record Signal : Type := mkSignal {
  side : string;
  amount : num
}.

(** The literal [0.95]. *)
Definition safety_margin : num := of_Q (95 # 100).

(* ------------------------------------------------------------------ *)
(** ** The program *)

Section Bot.

Variable cfg : Config.
Variable exchange : Exchange.

Definition send_alert (message : Alert) : M unit :=
  if truthy (TELEGRAM_BOT_TOKEN cfg) && truthy (TELEGRAM_CHAT_ID cfg) then
    try_except
      (t <- tick ;;
       if requests_post exchange t then record_post message
       else raise RequestError)
      (fun e => log (TelegramFailed e))
  else ret tt.

(** On an answer of the exchange, which loads (see [Exchange]), the
    conversion of the timestamps into the index of the frame changes neither
    the rows nor their order. *)
Definition get_data (symbol timeframe : string) (limit : nat) : M (list Row) :=
  t <- tick ;;
  ohlcv <- answer FetchError (fetch_ohlcv exchange t symbol timeframe limit) ;;
  ret (DataFrame ohlcv).

Definition get_daily_trend (symbol : string) : M Trend :=
  try_except
    (df_daily <- get_data symbol "1d" 50 ;;
     latest <- iloc df_daily (-1) ;;
     let close := close latest in
     let sma_200 := sma_200 latest in
     if isnan sma_200 then ret unknown
     else if gt close sma_200 then ret bullish
     else ret bearish)
    (fun e => log (DailyTrendError e) ;; ret unknown).

Definition get_balance (asset : string) : M num :=
  if PAPER_TRADING cfg then ret (of_Z 1000)
  else
    try_except
      (t <- tick ;;
       free <- answer FetchError (fetch_balance exchange t) ;;
       ret (match free asset with Some b => b | None => zero end))
      (fun e => log (BalanceFetchFailed e) ;; ret zero).

Definition place_order (side symbol : string) (amount : num) : M bool :=
  if PAPER_TRADING cfg then
    log (PaperTrade side amount symbol) ;;
    send_alert (PaperAlert side amount symbol) ;;
    ret true
  else
    try_except
      (t <- tick ;;
       record_submission (side, symbol, amount) ;;
       order <- answer OrderError
                  (if String.eqb side "buy"
                   then create_market_buy_order exchange t symbol amount
                   else create_market_sell_order exchange t symbol amount) ;;
       log (LiveOrderPlaced side amount symbol) ;;
       price <- getitem_average order ;;
       let stop := div (STOP_LOSS_PCT cfg) hundred in
       let target := div (mul (TAKE_PROFIT_RATIO cfg) (STOP_LOSS_PCT cfg)) hundred in
       sl_price <- (if String.eqb side "buy" then py_mul price (sub one stop)
                    else py_mul price (add one stop)) ;;
       tp_price <- (if String.eqb side "buy" then py_mul price (add one target)
                    else py_mul price (sub one target)) ;;
       send_alert (LiveAlert side amount symbol sl_price tp_price) ;;
       ret true)
      (fun e =>
         log (OrderFailed e) ;;
         send_alert (OrderFailedAlert e) ;;
         ret false).

(** The volume gate of [check_signal]: does it reject the candle? *)
Definition low_volume (latest : Row) : bool :=
  lt (volume latest) (mul (MIN_VOLUME_FACTOR cfg) (avg_volume latest)).

(** The size of a long position: [balance] and the risk fraction are Python
    floats, the price comes from the DataFrame, so the quotient is numpy's. *)
Definition buy_amount (balance price : num) : num :=
  let amount :=
    div (mul balance (div (RISK_PERCENT cfg) hundred))
        (mul price (div (STOP_LOSS_PCT cfg) hundred)) in
  mul amount safety_margin.

(** The size of a short position: only Python floats are involved, so a zero
    stop-loss percentage raises. *)
Definition sell_amount (balance : num) : M num :=
  amount <- py_truediv (mul balance (div (RISK_PERCENT cfg) hundred))
                       (div (STOP_LOSS_PCT cfg) hundred) ;;
  ret (mul amount safety_margin).

(** The decision of [check_signal] on the candle [latest], from the volume
    gate to the final [return None]. *)
Definition entry_decision (daily_trend : Trend) (latest : Row) : M (option Signal) :=
  if low_volume latest then
    log SkippedLowVolume ;; ret None
  else if Trend_eqb daily_trend bullish
          && lt (close latest) (sma_200 latest) then
    log SkippedBelowSMA ;; ret None
  else if Trend_eqb daily_trend bullish then
    if ge (wick_ratio_lower latest) (WICK_RATIO cfg)
       && lt (rsi latest) (of_Z (RSI_OVERSOLD cfg))
       && gt (close latest) (open latest) then
      balance <- get_balance "USDT" ;;
      let price := close latest in
      let amount := buy_amount balance price in
      log BullishReversionSignal ;;
      ret (Some {| side := "buy"; amount := amount |})
    else ret None
  else if Trend_eqb daily_trend bearish then
    if ge (wick_ratio_upper latest) (WICK_RATIO cfg)
       && gt (rsi latest) (of_Z (RSI_OVERBOUGHT cfg))
       && lt (close latest) (open latest) then
      balance <- get_balance "ETH" ;;
      amount <- sell_amount balance ;;
      log BearishReversionSignal ;;
      ret (Some {| side := "sell"; amount := amount |})
    else ret None
  else ret None.

Definition check_signal : M (option Signal) :=
  try_except
    (df <- get_data (SYMBOL cfg) (TIMEFRAME cfg) 100 ;;
     daily_trend <- get_daily_trend (SYMBOL cfg) ;;
     latest <- iloc df (-2) ;;
     entry_decision daily_trend latest)
    (fun e => log (SignalCheckError e) ;; ret None).

End Bot.

(* ------------------------------------------------------------------ *)
(** ** States and worlds used in the statements *)

(** The state after one collaborator call, and after one log entry. *)
Definition advance (s : State) : State :=
  {| clock := S (clock s); submitted := submitted s;
     posted := posted s; logged := logged s |}.

Definition with_log (s : State) (m : LogMsg) : State :=
  {| clock := clock s; submitted := submitted s;
     posted := posted s; logged := logged s ++ [m] |}.

(** The market-data collaborator returns at most the number of candles it
    was asked for. *)
Definition honours_limit (ex : Exchange) : Prop :=
  forall t symbol timeframe limit ohlcv,
    fetch_ohlcv ex t symbol timeframe limit = Some ohlcv ->
    (length ohlcv <= limit)%nat.

(** The exchange [ex] in which the call made at tick [t0] to [fetch_ohlcv]
    is answered by [answer0]. *)
Definition with_ohlcv (ex : Exchange) (t0 : nat) (answer0 : option (list Candle.t)) : Exchange :=
  {| fetch_ohlcv := fun t symbol timeframe limit =>
       if Nat.eqb t t0 then answer0 else fetch_ohlcv ex t symbol timeframe limit;
     fetch_balance := fetch_balance ex;
     create_market_buy_order := create_market_buy_order ex;
     create_market_sell_order := create_market_sell_order ex;
     requests_post := requests_post ex |}.

(** The series [series] with its final candle replaced. *)
Definition set_last (series : list Candle.t) (final : Candle.t) : list Candle.t :=
  removelast series ++ [final].

(** Every log entry written by [m] when run from [s] satisfies [P]. *)
Definition logs_at (P : LogMsg -> Prop) {A} (m : M A) (s : State) : Prop :=
  exists l, logged (snd (m s)) = logged s ++ l /\ Forall P l.

Definition logs_within (P : LogMsg -> Prop) {A} (m : M A) : Prop :=
  forall s, logs_at P m s.

Definition not_low_volume (m : LogMsg) : Prop := m <> SkippedLowVolume.

(** ** Sample candles, exchanges and configurations *)

(** A candle without body or wicks at price [c]. *)
Definition flat_candle (c : Z) : Candle.t :=
  Candle.make 0 (of_Z c) (of_Z c) (of_Z c) (of_Z c) (of_Z 10).

(** 200 daily candles closing at their own average: a bearish regime. *)
Definition daily_flat : list Candle.t := repeat (flat_candle 1) 200.

(** 200 daily candles, the latest closing above the average: bullish. *)
Definition daily_rally : list Candle.t := repeat (flat_candle 1) 199 ++ [flat_candle 2].

(** Closes 1, 2, ..., [n]; every candle opens 5 above its close and has a
    long upper wick. *)
Definition rising (n : nat) : list Candle.t :=
  map (fun i => let c := Z.of_nat (S i) in
                Candle.make 0 (of_Z (c + 5)) (of_Z (c + 25)) (of_Z c) (of_Z c) (of_Z 10))
      (seq 0 n).

(** Closes 100, 99, ...; every candle opens 5 below its close and has a long
    lower wick. *)
Definition falling (n : nat) : list Candle.t :=
  map (fun i => let c := (100 - Z.of_nat i)%Z in
                Candle.make 0 (of_Z (c - 5)) (of_Z c) (of_Z (c - 25)) (of_Z c) (of_Z 10))
      (seq 0 n).

(** 199 closes at 10, then a close at 5 (the decision candle) and a final
    candle still forming. *)
Definition dipping : list Candle.t :=
  repeat (flat_candle 10) 199 ++ [flat_candle 5; flat_candle 7].

(** An exchange that serves [daily] on the daily timeframe and [working] on
    every other one, reports the balances [free], and delivers every
    notification. *)
Definition sample_exchange (daily working : list Candle.t)
    (free : option (string -> option num)) : Exchange :=
  {| fetch_ohlcv := fun _ _ timeframe _ =>
       if String.eqb timeframe "1d" then Some daily else Some working;
     fetch_balance := fun _ => free;
     create_market_buy_order := fun _ _ _ => Some (Filled (of_Z 2000));
     create_market_sell_order := fun _ _ _ => Some (Filled (of_Z 2000));
     requests_post := fun _ => true |}.

(** An exchange with a long history that serves the requested number of
    candles. *)
Definition limited_exchange : Exchange :=
  {| fetch_ohlcv := fun _ _ _ limit => Some (firstn limit (rising 300));
     fetch_balance := fun _ => None;
     create_market_buy_order := fun _ _ _ => None;
     create_market_sell_order := fun _ _ _ => None;
     requests_post := fun _ => true |}.

(** The default configuration with a stop-loss percentage of zero. *)
Definition zero_stop_config : Config := {|
  SYMBOL := "ETH/USDT";
  TIMEFRAME := "15m";
  RISK_PERCENT := of_Z 1;
  STOP_LOSS_PCT := of_Z 0;
  TAKE_PROFIT_RATIO := Fin (18 # 10);
  MIN_VOLUME_FACTOR := of_Z 1;
  RSI_OVERBOUGHT := 75;
  RSI_OVERSOLD := 25;
  WICK_RATIO := of_Z 2;
  PAPER_TRADING := true;
  TELEGRAM_BOT_TOKEN := None;
  TELEGRAM_CHAT_ID := None
|}.

(** The default configuration, trading live. *)
Definition live_config : Config := {|
  SYMBOL := "ETH/USDT";
  TIMEFRAME := "15m";
  RISK_PERCENT := of_Z 1;
  STOP_LOSS_PCT := Fin (12 # 10);
  TAKE_PROFIT_RATIO := Fin (18 # 10);
  MIN_VOLUME_FACTOR := of_Z 1;
  RSI_OVERBOUGHT := 75;
  RSI_OVERSOLD := 25;
  WICK_RATIO := of_Z 2;
  PAPER_TRADING := false;
  TELEGRAM_BOT_TOKEN := None;
  TELEGRAM_CHAT_ID := None
|}.

(** A finite, strictly positive number. *)
Definition positive_finite (x : num) : bool :=
  match x with
  | Fin q => Qltb 0 q
  | _ => false
  end.

(** Every balance that [get_balance] can obtain is finite and strictly
    positive: the bot trades on paper, or every balance fetch succeeds and
    reports such a balance for every asset. *)
Definition reports_positive_balance (cfg : Config) (ex : Exchange) : Prop :=
  PAPER_TRADING cfg = true \/
  forall t asset, exists free b,
    fetch_balance ex t = Some free /\ free asset = Some b /\ positive_finite b = true.

(** Every candle served by the exchange closes at a finite, strictly
    positive price. *)
Definition serves_positive_closes (ex : Exchange) : Prop :=
  forall t symbol timeframe limit ohlcv,
    fetch_ohlcv ex t symbol timeframe limit = Some ohlcv ->
    forallb (fun c => positive_finite (Candle.close c)) ohlcv = true.



(** The RSI cell computed from one cell of each rolling average. *)
Definition rsi_cell (gain loss : num) : num :=
  sub hundred (div hundred (add one (div gain loss))).


(* ------------------------------------------------------------------ *)
(** ** The run loop *)

(** What [main] itself writes to the log, sends and waits for.  The entries
    written by the functions it calls stay in the [State] of those
    functions. *)
Inductive MainAlert : Type :=
| StartedAlert (symbol : string)
| BotErrorAlert (e : exn).

Inductive LoopEvent : Type :=
| Started
| TradingInfo (symbol : string) (paper : bool)
| NoSignal
| MainLoopError (e : exn)
| Notified (a : MainAlert)
| Slept (seconds : nat).

Record Loop : Type := mkLoop {
  bot : State;
  trace : list LoopEvent
}.

Definition L (A : Type) : Type := Loop -> res A * Loop.

Definition retL {A} (a : A) : L A := fun l => (Ok a, l).

Definition bindL {A B} (m : L A) (k : A -> L B) : L B :=
  fun l =>
    match m l with
    | (Ok a, l') => k a l'
    | (Raise e, l') => (Raise e, l')
    end.

Definition try_exceptL {A} (m : L A) (handler : exn -> L A) : L A :=
  fun l =>
    match m l with
    | (Ok a, l') => (Ok a, l')
    | (Raise e, l') => handler e l'
    end.

(** A call to one of the functions above. *)
Definition call {A} (m : M A) : L A :=
  fun l =>
    let (r, s') := m (bot l) in
    (r, {| bot := s'; trace := trace l |}).

Definition emit (e : LoopEvent) : L unit :=
  fun l => (Ok tt, {| bot := bot l; trace := trace l ++ [e] |}).

Notation "x <~ m ;; k" := (bindL m (fun x => k))
  (at level 61, m at next level, right associativity) : monad_scope.
Notation "m ;;; k" := (bindL m (fun _ => k))
  (at level 61, right associativity) : monad_scope.

Section RunLoop.

Variable cfg : Config.
Variable exchange : Exchange.

(** [send_alert] on one of the texts of [main]. *)
Definition send_main_alert (message : MainAlert) : L unit :=
  if truthy (TELEGRAM_BOT_TOKEN cfg) && truthy (TELEGRAM_CHAT_ID cfg) then
    try_exceptL
      (t <~ call tick ;;
       if requests_post exchange t then emit (Notified message)
       else call (raise RequestError))
      (fun e => call (log (TelegramFailed e)))
  else retL tt.

(** The three statements of [main] before the loop. *)
Definition main_start : L unit :=
  emit Started ;;;
  emit (TradingInfo (SYMBOL cfg) (PAPER_TRADING cfg)) ;;;
  send_main_alert (StartedAlert (SYMBOL cfg)).

(** One turn of the [while True] loop. *)
Definition main_iteration : L unit :=
  try_exceptL
    (signal <~ call (check_signal cfg exchange) ;;
     match signal with
     | Some sig =>
         call (place_order cfg exchange (side sig) (SYMBOL cfg) (amount sig)) ;;;
         emit (Slept 600)
     | None => emit NoSignal
     end ;;;
     emit (Slept 300))
    (fun e =>
       emit (MainLoopError e) ;;;
       send_main_alert (BotErrorAlert e) ;;;
       emit (Slept 60)).

(** The first [turns] turns of the loop. *)
Fixpoint main_loop (turns : nat) : L unit :=
  match turns with
  | O => retL tt
  | S n => main_iteration ;;; main_loop n
  end.

Definition main (turns : nat) : L unit :=
  main_start ;;; main_loop turns.

End RunLoop.

Definition initial_loop : Loop := {| bot := initial_state; trace := [] |}.

(* ------------------------------------------------------------------ *)
(** ** Further notions used in the statements *)

(** [m] only reads: it hands no order to the exchange, posts no alert, and
    makes at most [n] calls to the collaborators. *)
Definition reads_only (n : nat) {A} (m : M A) : Prop :=
  forall s,
    submitted (snd (m s)) = submitted s /\
    posted (snd (m s)) = posted s /\
    (clock s <= clock (snd (m s)) <= clock s + n)%nat.

(** The sum of a list of rationals. *)
Definition Qsum (qs : list Q) : Q := fold_right Qplus 0 qs.

(** The default configuration, trading live with notifications on. *)
Definition notifying_config : Config := {|
  SYMBOL := "ETH/USDT";
  TIMEFRAME := "15m";
  RISK_PERCENT := of_Z 1;
  STOP_LOSS_PCT := Fin (12 # 10);
  TAKE_PROFIT_RATIO := Fin (18 # 10);
  MIN_VOLUME_FACTOR := of_Z 1;
  RSI_OVERBOUGHT := 75;
  RSI_OVERSOLD := 25;
  WICK_RATIO := of_Z 2;
  PAPER_TRADING := false;
  TELEGRAM_BOT_TOKEN := Some "token"%string;
  TELEGRAM_CHAT_ID := Some "chat"%string
|}.

(** An exchange that refuses everything. *)
Definition failing_exchange : Exchange :=
  {| fetch_ohlcv := fun _ _ _ _ => None;
     fetch_balance := fun _ => None;
     create_market_buy_order := fun _ _ _ => None;
     create_market_sell_order := fun _ _ _ => None;
     requests_post := fun _ => false |}.

(** A candle at price 10 traded at a tenth of the usual volume. *)
Definition quiet_candle : Candle.t :=
  Candle.make 0 (of_Z 10) (of_Z 10) (of_Z 10) (of_Z 10) (of_Z 1).

(** Twenty ordinary candles, a quiet decision candle and a forming one. *)
Definition quiet_series : list Candle.t :=
  repeat (flat_candle 10) 20 ++ [quiet_candle; flat_candle 10].

(** ** The decision written on the cells of the candle *)

(** A timestamp in milliseconds that [pd.to_datetime(..., unit='ms')]
    converts: it fits a signed 64-bit count of nanoseconds. *)
Definition in_datetime_range (ms : Z) : bool :=
  ((-9223372036854 <=? ms) && (ms <=? 9223372036854))%Z.

(** The series loads into a DataFrame with a datetime index. *)
Definition loads (ohlcv : list Candle.t) : bool :=
  forallb (fun c => in_datetime_range (Candle.timestamp c)) ohlcv.

(** What [check_signal] returns, and the state it leaves, once the candle
    [latest] is through the volume gate, the daily trend being [trend] and
    the state [s1]: the trend-consistency gate, then the entry test of the
    trend's side with the sizing of the position; an exception raised on
    the way is logged and gives no signal. *)
Definition trend_and_entry_outcome (cfg : Config) (ex : Exchange) (trend : Trend)
    (latest : Row) (s1 : State) : res (option Signal) * State :=
  match trend with
  | bullish =>
      if lt (close latest) (sma_200 latest) then
        (Ok None, with_log s1 SkippedBelowSMA)
      else if ge (wick_ratio_lower latest) (WICK_RATIO cfg)
              && lt (rsi latest) (of_Z (RSI_OVERSOLD cfg))
              && gt (close latest) (open latest) then
        match get_balance cfg ex "USDT" s1 with
        | (Ok balance, s2) =>
            (Ok (Some {| side := "buy";
                         amount := buy_amount cfg balance (close latest) |}),
             with_log s2 BullishReversionSignal)
        | (Raise e, s2) => (Ok None, with_log s2 (SignalCheckError e))
        end
      else (Ok None, s1)
  | bearish =>
      if ge (wick_ratio_upper latest) (WICK_RATIO cfg)
         && gt (rsi latest) (of_Z (RSI_OVERBOUGHT cfg))
         && lt (close latest) (open latest) then
        match get_balance cfg ex "ETH" s1 with
        | (Ok balance, s2) =>
            match sell_amount cfg balance s2 with
            | (Ok amount, s3) =>
                (Ok (Some {| side := "sell"; amount := amount |}),
                 with_log s3 BearishReversionSignal)
            | (Raise e, s3) => (Ok None, with_log s3 (SignalCheckError e))
            end
        | (Raise e, s2) => (Ok None, with_log s2 (SignalCheckError e))
        end
      else (Ok None, s1)
  | unknown => (Ok None, s1)
  end.

(** The same from the volume gate on. *)
Definition decision_outcome (cfg : Config) (ex : Exchange) (trend : Trend)
    (latest : Row) (s1 : State) : res (option Signal) * State :=
  if lt (volume latest) (mul (MIN_VOLUME_FACTOR cfg) (avg_volume latest)) then
    (Ok None, with_log s1 SkippedLowVolume)
  else trend_and_entry_outcome cfg ex trend latest s1.

(** The order was accepted and carries an average fill price. *)
Definition priced (answer0 : option Order) : bool :=
  match answer0 with
  | Some (Filled _) => true
  | _ => false
  end.

(** The same series with one candle changed in its middle: the decision
    candle of [rising 16] closes above its open instead of below. *)
Definition rising_green : list Candle.t :=
  firstn 14 (rising 16)
  ++ [Candle.make 0 (of_Z 10) (of_Z 40) (of_Z 10) (of_Z 15) (of_Z 10)]
  ++ skipn 15 (rising 16).

(** An exchange that accepts every order without reporting a fill price. *)
Definition unpriced_exchange : Exchange :=
  {| fetch_ohlcv := fun _ _ _ _ => None;
     fetch_balance := fun _ => None;
     create_market_buy_order := fun _ _ _ => Some NoAverage;
     create_market_sell_order := fun _ _ _ => Some NoAverage;
     requests_post := fun _ => false |}.
(* ------------------------------------------------------------------ *)
(** * Properties *)

(** ** Rolling columns and row lookup *)

Lemma length_rolling_mean (w : nat) (xs : list num) :
  length (rolling_mean w xs) = length xs.
Proof. unfold rolling_mean. now rewrite length_map, length_seq. Qed.

Lemma nth_rolling_mean (w : nat) (xs : list num) (i : nat) :
  (i < length xs)%nat ->
  nth i (rolling_mean w xs) NaN = rolling_mean_at w xs i.
Proof.
  intros Hi. unfold rolling_mean.
  rewrite (nth_indep _ NaN (rolling_mean_at w xs 0%nat))
    by now rewrite length_map, length_seq.
  rewrite map_nth, seq_nth by assumption. reflexivity.
Qed.

(** Before its window is filled, a rolling mean is undefined. *)
Lemma nth_rolling_mean_unfilled (w : nat) (xs : list num) (i : nat) :
  (i + 1 < w)%nat -> nth i (rolling_mean w xs) NaN = NaN.
Proof.
  intros Hw. destruct (Nat.lt_ge_cases i (length xs)) as [Hi | Hi].
  - rewrite nth_rolling_mean by assumption. unfold rolling_mean_at.
    destruct (Nat.leb_spec w (i + 1)); [lia | reflexivity].
  - apply nth_overflow. now rewrite length_rolling_mean.
Qed.

Lemma nth_error_rows_from (ohlcv : list Candle.t) (a s r : list num) :
  forall i k,
    nth_error (rows_from i ohlcv a s r) k =
    option_map
      (fun c => enrich_row c (nth (i + k) a NaN) (nth (i + k) s NaN) (nth (i + k) r NaN))
      (nth_error ohlcv k).
Proof.
  induction ohlcv as [| c rest IH]; intros i k.
  - destruct k; reflexivity.
  - destruct k as [| k]; simpl.
    + now rewrite Nat.add_0_r.
    + rewrite IH. now replace (S i + k)%nat with (i + S k)%nat by lia.
Qed.

Lemma length_rows_from (ohlcv : list Candle.t) (a s r : list num) :
  forall i, length (rows_from i ohlcv a s r) = length ohlcv.
Proof. induction ohlcv; intros i; simpl; [reflexivity | now rewrite IHohlcv]. Qed.

Lemma length_DataFrame (ohlcv : list Candle.t) :
  length (DataFrame ohlcv) = length ohlcv.
Proof. apply length_rows_from. Qed.

Lemma nth_error_DataFrame (ohlcv : list Candle.t) (k : nat) (row : Row) :
  nth_error (DataFrame ohlcv) k = Some row ->
  exists c,
    nth_error ohlcv k = Some c /\
    row = enrich_row c
            (nth k (rolling_mean 20 (map Candle.volume ohlcv)) NaN)
            (nth k (rolling_mean 200 (map Candle.close ohlcv)) NaN)
            (nth k (calculate_rsi (map Candle.close ohlcv) 14) NaN).
Proof.
  unfold DataFrame. rewrite nth_error_rows_from. simpl.
  destruct (nth_error ohlcv k) as [c |]; simpl; [| discriminate].
  intros [= <-]. now exists c.
Qed.

(** Rows before index 199 have no long moving average, rows before index 19
    no average volume. *)
Lemma sma_200_unfilled (ohlcv : list Candle.t) (k : nat) (row : Row) :
  nth_error (DataFrame ohlcv) k = Some row -> (k < 199)%nat -> sma_200 row = NaN.
Proof.
  intros H Hk. apply nth_error_DataFrame in H as (c & _ & ->). simpl.
  apply nth_rolling_mean_unfilled. lia.
Qed.

Lemma avg_volume_unfilled (ohlcv : list Candle.t) (k : nat) (row : Row) :
  nth_error (DataFrame ohlcv) k = Some row -> (k < 19)%nat -> avg_volume row = NaN.
Proof.
  intros H Hk. apply nth_error_DataFrame in H as (c & _ & ->). simpl.
  apply nth_rolling_mean_unfilled. lia.
Qed.

(** ** Row selection *)

Lemma iloc_last (df : list Row) (s : State) :
  iloc df (-1) s =
  match df with
  | [] => (Raise IndexError, s)
  | _ => (match nth_error df (length df - 1) with
          | Some r => Ok r
          | None => Raise IndexError
          end, s)
  end.
Proof.
  unfold iloc. destruct df as [| r df]; [reflexivity |].
  change (-1 <? 0)%Z with true. cbv iota.
  destruct (Z.ltb_spec (Z.of_nat (length (r :: df)) + -1) 0) as [H | H].
  - simpl length in H. lia.
  - replace (Z.to_nat (Z.of_nat (length (r :: df)) + -1)) with (length (r :: df) - 1)%nat by lia.
    unfold answer. destruct (nth_error _ _); reflexivity.
Qed.

Lemma iloc_second_last (df : list Row) (s : State) :
  iloc df (-2) s =
  if (2 <=? length df)%nat then
    (match nth_error df (length df - 2) with
     | Some r => Ok r
     | None => Raise IndexError
     end, s)
  else (Raise IndexError, s).
Proof.
  unfold iloc. change (-2 <? 0)%Z with true. cbv iota.
  destruct (Nat.leb_spec 2 (length df)) as [H | H].
  - destruct (Z.ltb_spec (Z.of_nat (length df) + -2) 0) as [H' | H']; [lia |].
    replace (Z.to_nat (Z.of_nat (length df) + -2)) with (length df - 2)%nat by lia.
    unfold answer. destruct (nth_error _ _); reflexivity.
  - destruct (Z.ltb_spec (Z.of_nat (length df) + -2) 0) as [H' | H']; [reflexivity | lia].
Qed.

(** ** The pipeline on a fetched series *)

Lemma get_data_run (ex : Exchange) (symbol timeframe : string) (limit : nat) (s : State) :
  get_data ex symbol timeframe limit s =
  match fetch_ohlcv ex (clock s) symbol timeframe limit with
  | Some ohlcv => (Ok (DataFrame ohlcv), advance s)
  | None => (Raise FetchError, advance s)
  end.
Proof.
  unfold get_data, bind, tick, answer. simpl.
  destruct (fetch_ohlcv ex (clock s) symbol timeframe limit); reflexivity.
Qed.

(** ** The daily trend on a series of at most 50 candles *)

Lemma get_daily_trend_unfilled (ex : Exchange) (symbol : string) (s : State) :
  (forall ohlcv, fetch_ohlcv ex (clock s) symbol "1d" 50 = Some ohlcv ->
                 (length ohlcv <= 199)%nat) ->
  fst (get_daily_trend ex symbol s) = Ok unknown.
Proof.
  intros Hlen. unfold get_daily_trend, try_except, bind.
  rewrite get_data_run.
  destruct (fetch_ohlcv ex (clock s) symbol "1d" 50) as [ohlcv |] eqn:Hfetch;
    [| reflexivity].
  specialize (Hlen ohlcv eq_refl).
  rewrite iloc_last.
  destruct (DataFrame ohlcv) as [| r0 df0] eqn:Hdf; [reflexivity |].
  rewrite <- Hdf.
  destruct (nth_error (DataFrame ohlcv) (length (DataFrame ohlcv) - 1))
    as [latest |] eqn:Hlatest; [| reflexivity].
  rewrite (sma_200_unfilled ohlcv _ latest Hlatest).
  - reflexivity.
  - rewrite length_DataFrame. assert (length ohlcv <> 0)%nat.
    { intros E. rewrite <- length_DataFrame, Hdf in E. discriminate. }
    lia.
Qed.

Lemma entry_decision_unknown (cfg : Config) (ex : Exchange) (latest : Row) (s : State) :
  fst (entry_decision cfg ex unknown latest s) = Ok None.
Proof.
  unfold entry_decision. destruct (low_volume cfg latest); reflexivity.
Qed.

Lemma check_signal_trend_unknown (cfg : Config) (ex : Exchange) (s : State) :
  fst (get_daily_trend ex (SYMBOL cfg) (advance s)) = Ok unknown ->
  fst (check_signal cfg ex s) = Ok None.
Proof.
  intros Htrend. unfold check_signal, try_except, bind.
  rewrite get_data_run.
  destruct (fetch_ohlcv ex (clock s) (SYMBOL cfg) (TIMEFRAME cfg) 100) as [ohlcv |];
    [| reflexivity].
  destruct (get_daily_trend ex (SYMBOL cfg) (advance s)) as [[t | e] s1];
    simpl in Htrend; [| discriminate].
  injection Htrend as ->.
  rewrite iloc_second_last.
  destruct (2 <=? length (DataFrame ohlcv))%nat; [| reflexivity].
  destruct (nth_error (DataFrame ohlcv) (length (DataFrame ohlcv) - 2)) as [latest |];
    [| reflexivity].
  pose proof (entry_decision_unknown cfg ex latest s1) as H.
  destruct (entry_decision cfg ex unknown latest s1) as [[r | e] s2];
    simpl in H; [| discriminate].
  now injection H as ->.
Qed.

(** C1: when the market-data collaborator returns at most the requested
    number of candles, the 50-candle daily series never fills the 200-sample
    window, so [get_daily_trend] answers [unknown] for every symbol and in
    every state, and [check_signal] returns no signal: no buy or sell
    decision is ever emitted. *)
Theorem daily_trend_always_unknown (cfg : Config) (ex : Exchange) :
  honours_limit ex ->
  forall s : State,
    (forall symbol, fst (get_daily_trend ex symbol s) = Ok unknown) /\
    fst (check_signal cfg ex s) = Ok None.
Proof.
  intros Hlimit s.
  assert (Htrend : forall symbol s', fst (get_daily_trend ex symbol s') = Ok unknown).
  { intros symbol s'. apply get_daily_trend_unfilled.
    intros ohlcv Hfetch. apply Hlimit in Hfetch. lia. }
  split.
  - intros symbol. apply Htrend.
  - apply check_signal_trend_unknown, Htrend.
Qed.

Lemma daily_trend_always_unknown_witness :
  honours_limit limited_exchange /\
  (forall symbol,
      fst (get_daily_trend limited_exchange symbol initial_state) = Ok unknown) /\
  fst (check_signal default_config limited_exchange initial_state) = Ok None.
Proof.
  assert (H : honours_limit limited_exchange).
  { intros t symbol timeframe limit ohlcv [= <-]. apply firstn_le_length. }
  split; [exact H |].
  exact (daily_trend_always_unknown default_config limited_exchange H initial_state).
Defined.

(** ** The pipeline on an empty series *)

(** C7, as the code has it: the pipeline raises no InsufficientData error.
    When the fetched sequence of candles is empty, [get_data] does not fail:
    it returns the enriched empty series. *)
Theorem get_data_empty_series (ex : Exchange) (symbol timeframe : string)
    (limit : nat) (s : State) :
  fetch_ohlcv ex (clock s) symbol timeframe limit = Some [] ->
  get_data ex symbol timeframe limit s = (Ok [], advance s).
Proof.
  intros Hfetch. rewrite get_data_run, Hfetch. reflexivity.
Qed.

Lemma get_data_empty_series_witness :
  get_data (sample_exchange [] [] None) "ETH/USDT" "15m" 100 initial_state
  = (Ok [], advance initial_state).
Proof.
  apply (get_data_empty_series (sample_exchange [] [] None) "ETH/USDT" "15m" 100
           initial_state).
  reflexivity.
Defined.

(** C7 as stated fails: on an empty input sequence the pipeline does not
    fail, it returns the enriched empty series. *)
Lemma get_data_empty_returns :
  get_data (sample_exchange [] [] None) "ETH/USDT" "15m" 100 initial_state
  = (Ok [], advance initial_state).
Proof. reflexivity. Qed.

(** ** The execution gateway in paper mode *)

(** C8: in paper-trading mode [place_order] returns [True] for every side,
    symbol and quantity, and hands no order to the exchange. *)
Theorem place_order_paper (cfg : Config) (ex : Exchange)
    (side symbol : string) (amount : num) (s : State) :
  PAPER_TRADING cfg = true ->
  fst (place_order cfg ex side symbol amount s) = Ok true /\
  submitted (snd (place_order cfg ex side symbol amount s)) = submitted s.
Proof.
  intros Hpaper. unfold place_order. rewrite Hpaper.
  unfold send_alert.
  destruct (truthy (TELEGRAM_BOT_TOKEN cfg) && truthy (TELEGRAM_CHAT_ID cfg)).
  - cbv [bind log try_except tick ret record_post raise]. simpl.
    destruct (requests_post ex (clock s)); split; reflexivity.
  - split; reflexivity.
Qed.

Lemma place_order_paper_witness :
  fst (place_order default_config (sample_exchange [] [] None)
         "buy" "ETH/USDT" (of_Z 3) initial_state) = Ok true /\
  submitted (snd (place_order default_config (sample_exchange [] [] None)
                    "buy" "ETH/USDT" (of_Z 3) initial_state))
  = submitted initial_state.
Proof.
  apply (place_order_paper default_config (sample_exchange [] [] None)
           "buy" "ETH/USDT" (of_Z 3) initial_state).
  reflexivity.
Defined.

(** ** What a computation may write to the log *)

Section Logs.

Variable P : LogMsg -> Prop.

Lemma logs_at_silent {A} (m : M A) (s : State) :
  logged (snd (m s)) = logged s -> logs_at P m s.
Proof. intros H. exists []. rewrite H, app_nil_r. auto. Qed.

Lemma logs_ret {A} (a : A) : logs_within P (ret a).
Proof. intros s. now apply logs_at_silent. Qed.

Lemma logs_raise {A} (e : exn) : logs_within P (@raise A e).
Proof. intros s. now apply logs_at_silent. Qed.

Lemma logs_tick : logs_within P tick.
Proof. intros s. now apply logs_at_silent. Qed.

Lemma logs_record_post (a : Alert) : logs_within P (record_post a).
Proof. intros s. now apply logs_at_silent. Qed.

Lemma logs_answer {A} (e : exn) (o : option A) : logs_within P (answer e o).
Proof. destruct o; [apply logs_ret | apply logs_raise]. Qed.

Lemma logs_log (m : LogMsg) : P m -> logs_within P (log m).
Proof. intros Hm s. exists [m]. split; [reflexivity | auto]. Qed.

Lemma logs_at_bind {A B} (m : M A) (k : A -> M B) (s : State) :
  logs_at P m s ->
  (forall a s', m s = (Ok a, s') -> logs_at P (k a) s') ->
  logs_at P (bind m k) s.
Proof.
  intros (l1 & H1 & F1) Hk. unfold logs_at, bind.
  destruct (m s) as [[a | e] s'] eqn:Hm; simpl in H1.
  - destruct (Hk a s' eq_refl) as (l2 & H2 & F2).
    exists (l1 ++ l2). rewrite H2, H1, app_assoc. split; [reflexivity |].
    apply Forall_app; auto.
  - exists l1. auto.
Qed.

Lemma logs_at_try_except {A} (m : M A) (handler : exn -> M A) (s : State) :
  logs_at P m s ->
  (forall e s', m s = (Raise e, s') -> logs_at P (handler e) s') ->
  logs_at P (try_except m handler) s.
Proof.
  intros (l1 & H1 & F1) Hh. unfold logs_at, try_except.
  destruct (m s) as [[a | e] s'] eqn:Hm; simpl in H1.
  - exists l1. auto.
  - destruct (Hh e s' eq_refl) as (l2 & H2 & F2).
    exists (l1 ++ l2). rewrite H2, H1, app_assoc. split; [reflexivity |].
    apply Forall_app; auto.
Qed.

Lemma logs_bind {A B} (m : M A) (k : A -> M B) :
  logs_within P m -> (forall a, logs_within P (k a)) -> logs_within P (bind m k).
Proof. intros Hm Hk s. apply logs_at_bind; [apply Hm | intros; apply Hk]. Qed.

Lemma logs_try_except {A} (m : M A) (handler : exn -> M A) :
  logs_within P m -> (forall e, logs_within P (handler e)) ->
  logs_within P (try_except m handler).
Proof. intros Hm Hh s. apply logs_at_try_except; [apply Hm | intros; apply Hh]. Qed.

End Logs.

Create HintDb logs.

#[local] Hint Resolve logs_ret logs_raise logs_tick logs_record_post logs_answer
  logs_log logs_bind logs_try_except : logs.

Lemma not_low_volume_other (m : LogMsg) :
  match m with SkippedLowVolume => False | _ => True end -> not_low_volume m.
Proof. unfold not_low_volume. destruct m; intros H; (contradiction || discriminate). Qed.

(** Closes [logs_within not_low_volume (log m)] for any other message [m]. *)
Ltac other_message := apply logs_log, not_low_volume_other; exact I.

Lemma logs_get_data (ex : Exchange) (symbol timeframe : string) (limit : nat) :
  logs_within not_low_volume (get_data ex symbol timeframe limit).
Proof. unfold get_data. auto with logs. Qed.

Lemma logs_iloc (df : list Row) (k : Z) : logs_within not_low_volume (iloc df k).
Proof.
  unfold iloc. cbv zeta.
  destruct (_ <? 0)%Z; auto with logs.
Qed.

Lemma logs_get_daily_trend (ex : Exchange) (symbol : string) :
  logs_within not_low_volume (get_daily_trend ex symbol).
Proof.
  unfold get_daily_trend. apply logs_try_except.
  - apply logs_bind; [apply logs_get_data |]. intros df.
    apply logs_bind; [apply logs_iloc |]. intros latest. cbv zeta.
    destruct (isnan _); [| destruct (gt _ _)]; apply logs_ret.
  - intros e. apply logs_bind; [other_message | intros; apply logs_ret].
Qed.

Lemma logs_get_balance (cfg : Config) (ex : Exchange) (asset : string) :
  logs_within not_low_volume (get_balance cfg ex asset).
Proof.
  unfold get_balance. destruct (PAPER_TRADING cfg); [apply logs_ret |].
  apply logs_try_except.
  - auto with logs.
  - intros e. apply logs_bind; [other_message | intros; apply logs_ret].
Qed.

Lemma logs_sell_amount (cfg : Config) (balance : num) :
  logs_within not_low_volume (sell_amount cfg balance).
Proof.
  unfold sell_amount, py_truediv. apply logs_bind; [| intros; apply logs_ret].
  destruct (div (STOP_LOSS_PCT cfg) hundred); try apply logs_ret.
  destruct (Qeq_bool q 0); [apply logs_raise | apply logs_ret].
Qed.

(** Once the volume gate lets the candle through, nothing below it reports
    a low volume. *)
Lemma logs_entry_decision (cfg : Config) (ex : Exchange) (trend : Trend) (latest : Row) :
  low_volume cfg latest = false ->
  logs_within not_low_volume (entry_decision cfg ex trend latest).
Proof.
  intros Hgate. unfold entry_decision. rewrite Hgate.
  destruct (Trend_eqb trend bullish && lt (close latest) (sma_200 latest)).
  { apply logs_bind; [other_message | intros; apply logs_ret]. }
  destruct (Trend_eqb trend bullish).
  { destruct (_ && _); [| apply logs_ret].
    apply logs_bind; [apply logs_get_balance |]. intros balance. cbv zeta.
    apply logs_bind; [other_message | intros; apply logs_ret]. }
  destruct (Trend_eqb trend bearish); [| apply logs_ret].
  destruct (_ && _); [| apply logs_ret].
  apply logs_bind; [apply logs_get_balance |]. intros balance.
  apply logs_bind; [apply logs_sell_amount |]. intros amount.
  apply logs_bind; [other_message | intros; apply logs_ret].
Qed.

(** ** The volume gate on an undefined average *)

Lemma lt_NaN_r (x : num) : lt x NaN = false.
Proof. destruct x; reflexivity. Qed.

Lemma mul_NaN_r (x : num) : mul x NaN = NaN.
Proof. destruct x; reflexivity. Qed.

Lemma low_volume_undefined (cfg : Config) (latest : Row) :
  avg_volume latest = NaN -> low_volume cfg latest = false.
Proof. intros H. unfold low_volume. now rewrite H, mul_NaN_r, lt_NaN_r. Qed.

Lemma logs_check_signal (cfg : Config) (ex : Exchange) (s : State) :
  (forall ohlcv latest,
      fetch_ohlcv ex (clock s) (SYMBOL cfg) (TIMEFRAME cfg) 100 = Some ohlcv ->
      nth_error (DataFrame ohlcv) (length ohlcv - 2) = Some latest ->
      low_volume cfg latest = false) ->
  logs_at not_low_volume (check_signal cfg ex) s.
Proof.
  intros Hgate. unfold check_signal. apply logs_at_try_except.
  - apply logs_at_bind; [apply logs_get_data |]. intros df s1 Hdf.
    apply logs_at_bind; [apply logs_get_daily_trend |]. intros trend s2 _.
    apply logs_at_bind; [apply logs_iloc |]. intros latest s3 Hlatest.
    apply logs_entry_decision.
    rewrite get_data_run in Hdf.
    destruct (fetch_ohlcv ex (clock s) (SYMBOL cfg) (TIMEFRAME cfg) 100)
      as [ohlcv |] eqn:Hfetch; [| discriminate].
    injection Hdf as <- _.
    apply (Hgate ohlcv latest eq_refl).
    rewrite iloc_second_last, length_DataFrame in Hlatest.
    destruct (2 <=? length ohlcv)%nat; [| discriminate].
    destruct (nth_error (DataFrame ohlcv) (length ohlcv - 2)); [| discriminate].
    now injection Hlatest as -> _.
  - intros e s' _. apply logs_bind; [other_message | intros; apply logs_ret].
Qed.

(** ** Running [check_signal] up to the decision candle *)

Lemma get_daily_trend_returns (ex : Exchange) (symbol : string) (s : State) :
  exists trend s', get_daily_trend ex symbol s = (Ok trend, s').
Proof.
  unfold get_daily_trend, try_except, bind. rewrite get_data_run.
  destruct (fetch_ohlcv ex (clock s) symbol "1d" 50) as [ohlcv |];
    [| eexists; eexists; reflexivity].
  destruct (iloc (DataFrame ohlcv) (-1) (advance s)) as [[latest | e] s1];
    [| eexists; eexists; reflexivity].
  cbv zeta. destruct (isnan _); [| destruct (gt _ _)]; eexists; eexists; reflexivity.
Qed.

Lemma check_signal_run (cfg : Config) (ex : Exchange) (s s1 : State)
    (ohlcv : list Candle.t) (trend : Trend) (latest : Row) :
  fetch_ohlcv ex (clock s) (SYMBOL cfg) (TIMEFRAME cfg) 100 = Some ohlcv ->
  get_daily_trend ex (SYMBOL cfg) (advance s) = (Ok trend, s1) ->
  (2 <= length ohlcv)%nat ->
  nth_error (DataFrame ohlcv) (length ohlcv - 2) = Some latest ->
  check_signal cfg ex s =
  try_except (entry_decision cfg ex trend latest)
    (fun e => log (SignalCheckError e) ;; ret None) s1.
Proof.
  intros Hfetch Htrend Hlen Hlatest. unfold check_signal, try_except, bind.
  rewrite get_data_run, Hfetch, Htrend, iloc_second_last, length_DataFrame, Hlatest.
  destruct (Nat.leb_spec 2 (length ohlcv)); [reflexivity | lia].
Qed.

(** ** The trend-consistency gate *)

(** C6: when the decision candle passes the volume gate, the regime is
    bullish and the close is strictly below the candle's defined long moving
    average, [check_signal] returns no signal, whatever the wick ratios, the
    RSI and the open are. *)
Theorem bullish_below_sma_no_signal (cfg : Config) (ex : Exchange) (s s1 : State)
    (ohlcv : list Candle.t) (latest : Row) (c m : Q) :
  fetch_ohlcv ex (clock s) (SYMBOL cfg) (TIMEFRAME cfg) 100 = Some ohlcv ->
  get_daily_trend ex (SYMBOL cfg) (advance s) = (Ok bullish, s1) ->
  (2 <= length ohlcv)%nat ->
  nth_error (DataFrame ohlcv) (length ohlcv - 2) = Some latest ->
  low_volume cfg latest = false ->
  close latest = Fin c ->
  sma_200 latest = Fin m ->
  c < m ->
  check_signal cfg ex s = (Ok None, with_log s1 SkippedBelowSMA).
Proof.
  intros Hfetch Htrend Hlen Hlatest Hvolume Hclose Hsma Hbelow.
  rewrite (check_signal_run cfg ex s s1 ohlcv bullish latest) by assumption.
  unfold try_except, entry_decision. rewrite Hvolume, Hclose, Hsma. simpl.
  unfold Qltb. destruct (Qle_bool m c) eqn:Hle.
  - apply Qle_bool_iff in Hle. lra.
  - reflexivity.
Qed.

Lemma bullish_below_sma_no_signal_witness :
  check_signal default_config (sample_exchange daily_rally dipping None) initial_state
  = (Ok None, with_log (advance (advance initial_state)) SkippedBelowSMA).
Proof.
  eapply (bullish_below_sma_no_signal default_config
            (sample_exchange daily_rally dipping None) initial_state
            (advance (advance initial_state)) dipping _ 5 (399 # 40)).
  - reflexivity.
  - vm_compute. reflexivity.
  - vm_compute. lia.
  - vm_compute. reflexivity.
  - vm_compute. reflexivity.
  - reflexivity.
  - vm_compute. reflexivity.
  - vm_compute. reflexivity.
Defined.

(** ** The decision on the second-to-last candle *)

Lemma entry_decision_outcome (cfg : Config) (ex : Exchange) (trend : Trend)
    (latest : Row) (s1 : State) :
  try_except (entry_decision cfg ex trend latest)
    (fun e => log (SignalCheckError e) ;; ret None) s1
  = decision_outcome cfg ex trend latest s1.
Proof.
  unfold decision_outcome, trend_and_entry_outcome, try_except, entry_decision, low_volume.
  destruct (lt (volume latest) (mul (MIN_VOLUME_FACTOR cfg) (avg_volume latest)));
    [reflexivity |].
  destruct trend; cbn [Trend_eqb andb].
  - destruct (lt (close latest) (sma_200 latest)); [reflexivity |].
    destruct (_ && _); [| reflexivity].
    unfold bind at 1.
    destruct (get_balance cfg ex "USDT" s1) as [[balance | e] s2]; reflexivity.
  - destruct (_ && _); [| reflexivity].
    unfold bind at 1.
    destruct (get_balance cfg ex "ETH" s1) as [[balance | e] s2]; [| reflexivity].
    unfold bind at 1.
    destruct (sell_amount cfg balance s2) as [[a | e] s3]; reflexivity.
  - reflexivity.
Qed.

Lemma check_signal_outcome (cfg : Config) (ex : Exchange) (s s1 : State)
    (ohlcv : list Candle.t) (trend : Trend) (latest : Row) :
  fetch_ohlcv ex (clock s) (SYMBOL cfg) (TIMEFRAME cfg) 100 = Some ohlcv ->
  get_daily_trend ex (SYMBOL cfg) (advance s) = (Ok trend, s1) ->
  (2 <= length ohlcv)%nat ->
  nth_error (DataFrame ohlcv) (length ohlcv - 2) = Some latest ->
  check_signal cfg ex s = decision_outcome cfg ex trend latest s1.
Proof.
  intros Hfetch Htrend Hlen Hlatest.
  rewrite (check_signal_run cfg ex s s1 ohlcv trend latest) by assumption.
  apply entry_decision_outcome.
Qed.

(** C10: on a working series of fewer than 20 candles the decision candle has
    no average volume; the comparison of the volume gate is then false, so
    the gate does not reject the candle and [check_signal] never reports a
    low volume: the candle goes on to the trend-consistency gate, and what
    [check_signal] returns is the outcome of that gate and of the entry test
    on this very candle. *)
Theorem volume_gate_passes_undefined (cfg : Config) (ex : Exchange) (s : State)
    (ohlcv : list Candle.t) :
  fetch_ohlcv ex (clock s) (SYMBOL cfg) (TIMEFRAME cfg) 100 = Some ohlcv ->
  (length ohlcv < 20)%nat ->
  (forall latest,
      nth_error (DataFrame ohlcv) (length ohlcv - 2) = Some latest ->
      avg_volume latest = NaN /\
      lt (volume latest) (mul (MIN_VOLUME_FACTOR cfg) (avg_volume latest)) = false) /\
  logs_at not_low_volume (check_signal cfg ex) s /\
  (forall latest trend s1,
      (2 <= length ohlcv)%nat ->
      loads ohlcv = true ->
      nth_error (DataFrame ohlcv) (length ohlcv - 2) = Some latest ->
      get_daily_trend ex (SYMBOL cfg) (advance s) = (Ok trend, s1) ->
      check_signal cfg ex s = trend_and_entry_outcome cfg ex trend latest s1).
Proof.
  intros Hfetch Hshort.
  assert (Havg : forall latest,
             nth_error (DataFrame ohlcv) (length ohlcv - 2) = Some latest ->
             avg_volume latest = NaN).
  { intros latest Hlatest. apply (avg_volume_unfilled ohlcv _ latest Hlatest). lia. }
  assert (Hgate : forall latest,
             nth_error (DataFrame ohlcv) (length ohlcv - 2) = Some latest ->
             lt (volume latest) (mul (MIN_VOLUME_FACTOR cfg) (avg_volume latest)) = false).
  { intros latest Hlatest. apply (low_volume_undefined cfg), Havg, Hlatest. }
  split; [| split].
  - intros latest Hlatest. split; [now apply Havg | now apply Hgate].
  - apply logs_check_signal. intros ohlcv' latest Hfetch' Hlatest.
    rewrite Hfetch in Hfetch'. injection Hfetch' as <-.
    apply low_volume_undefined, Havg, Hlatest.
  - intros latest trend s1 Hlen _ Hlatest Htrend.
    rewrite (check_signal_outcome cfg ex s s1 ohlcv trend latest) by assumption.
    unfold decision_outcome. now rewrite (Hgate latest Hlatest).
Qed.

(** Sixteen rising candles under a bearish daily trend: the decision candle
    has no average volume and goes on to the sell entry test, which it
    passes. *)
Lemma volume_gate_passes_undefined_witness :
  (forall latest,
      nth_error (DataFrame (rising 16)) (length (rising 16) - 2) = Some latest ->
      avg_volume latest = NaN /\
      lt (volume latest) (mul (MIN_VOLUME_FACTOR default_config) (avg_volume latest))
      = false) /\
  logs_at not_low_volume
    (check_signal default_config (sample_exchange daily_flat (rising 16) None))
    initial_state /\
  check_signal default_config (sample_exchange daily_flat (rising 16) None) initial_state
  = (Ok (Some {| side := "sell"; amount := Fin (2375 # 3) |}),
     with_log (advance (advance initial_state)) BearishReversionSignal).
Proof.
  destruct (volume_gate_passes_undefined default_config
              (sample_exchange daily_flat (rising 16) None) initial_state (rising 16))
    as (Hcell & Hlog & Hnext).
  - reflexivity.
  - vm_compute. lia.
  - split; [exact Hcell |]. split; [exact Hlog |].
    assert (Hrow : exists latest,
               nth_error (DataFrame (rising 16)) (length (rising 16) - 2) = Some latest).
    { eexists. vm_compute. reflexivity. }
    destruct Hrow as (latest & Hlatest).
    rewrite (Hnext latest bearish (advance (advance initial_state))).
    + revert Hlatest. vm_compute. intros [= <-]. reflexivity.
    + vm_compute. lia.
    + reflexivity.
    + exact Hlatest.
    + vm_compute. reflexivity.
Defined.

(** ** Position sizing *)

Lemma Qeq_bool_nonzero (q : Q) : ~ q == 0 -> Qeq_bool q 0 = false.
Proof.
  intros H. destruct (Qeq_bool q 0) eqn:E; [| reflexivity].
  apply Qeq_bool_iff in E. contradiction.
Qed.

Lemma Qeq_bool_zero (q : Q) : q == 0 -> Qeq_bool q 0 = true.
Proof. intros H. now apply Qeq_bool_iff. Qed.

Lemma div_hundred (x : Q) : div (Fin x) hundred = Fin (Qred (x / 100)).
Proof. reflexivity. Qed.

Section Sizing.

Variables (cfg : Config) (R S r s : Q).
Hypothesis HR : RISK_PERCENT cfg = Fin R.
Hypothesis HS : STOP_LOSS_PCT cfg = Fin S.
Hypothesis Hr : r == R / 100.
Hypothesis Hs : s == S / 100.
Hypothesis Hspos : 0 < s.

Lemma buy_amount_formula (b p : Q) :
  0 < p ->
  buy_amount cfg (Fin b) (Fin p) = of_Q ((b * r) / (p * s) * (95 # 100)).
Proof.
  intros Hppos.
  assert (Hps : ~ Qred (p * Qred (S / 100)) == 0).
  { rewrite !Qred_correct, <- Hs. nra. }
  unfold buy_amount. rewrite HR, HS, !div_hundred. cbn [mul].
  unfold div. rewrite (Qeq_bool_nonzero _ Hps).
  unfold safety_margin, of_Q. cbn [mul]. f_equal.
  apply Qred_complete. rewrite !Qred_correct, <- Hr, <- Hs. reflexivity.
Qed.

Lemma sell_amount_formula (b : Q) (st : State) :
  sell_amount cfg (Fin b) st = (Ok (of_Q ((b * r) / s * (95 # 100))), st).
Proof.
  assert (Hs' : ~ Qred (S / 100) == 0) by (rewrite Qred_correct, <- Hs; lra).
  unfold sell_amount, py_truediv, bind.
  rewrite HR, HS, !div_hundred. cbn [mul].
  rewrite (Qeq_bool_nonzero _ Hs'). unfold ret, div.
  rewrite (Qeq_bool_nonzero _ Hs').
  unfold safety_margin, of_Q. cbn [mul]. do 3 f_equal.
  apply Qred_complete. rewrite !Qred_correct, <- Hr, <- Hs. reflexivity.
Qed.

End Sizing.

(** C3: with a risk fraction [r] and a stop-loss fraction [s > 0] (the
    configured percentages divided by 100), a balance [b] and a price
    [p > 0], the buy quantity is (b*r)/(p*s)*0.95 and the sell quantity is
    (b*r)/s*0.95, without any division by the price. *)
Theorem position_size_formula (cfg : Config) (b p R S r s : Q) :
  RISK_PERCENT cfg = Fin R ->
  STOP_LOSS_PCT cfg = Fin S ->
  r == R / 100 ->
  s == S / 100 ->
  0 < s ->
  0 < p ->
  buy_amount cfg (Fin b) (Fin p) = of_Q ((b * r) / (p * s) * (95 # 100)) /\
  forall st,
    sell_amount cfg (Fin b) st = (Ok (of_Q ((b * r) / s * (95 # 100))), st).
Proof.
  intros HR HS Hr Hs Hspos Hppos. split.
  - now apply (buy_amount_formula cfg R S).
  - intros st. now apply (sell_amount_formula cfg R S).
Qed.

(** The spec's example: balance 1000, risk 0.01, stop 0.012, price 2000. *)
Lemma position_size_formula_witness :
  buy_amount default_config (Fin 1000) (Fin 2000)
  = of_Q ((1000 * (1 # 100)) / (2000 * (12 # 1000)) * (95 # 100)) /\
  forall st,
    sell_amount default_config (Fin 1000) st
    = (Ok (of_Q ((1000 * (1 # 100)) / (12 # 1000) * (95 # 100))), st).
Proof.
  apply (position_size_formula default_config 1000 2000 1 (12 # 10)
           (1 # 100) (12 # 1000)); reflexivity.
Defined.

(** The two quantities of the example, in lowest terms: 19/48 = 0.3958...
    and 2375/3 = 791.67... *)
Example default_sizes :
  buy_amount default_config (of_Z 1000) (of_Z 2000) = Fin (19 # 48) /\
  fst (sell_amount default_config (of_Z 1000) initial_state) = Ok (Fin (2375 # 3)).
Proof. split; reflexivity. Qed.

(** ** What [check_signal] returns *)

(** [check_signal] catches every exception: it always returns. *)
Lemma check_signal_returns (cfg : Config) (ex : Exchange) (s : State) :
  exists r s', check_signal cfg ex s = (Ok r, s').
Proof.
  unfold check_signal, try_except.
  match goal with |- context [match ?m s with _ => _ end] => destruct (m s) as [[r | e] s1] end.
  - now exists r, s1.
  - eexists; eexists; reflexivity.
Qed.

(** A returned signal comes from the entry decision on the second-to-last
    row of the fetched series. *)
Lemma check_signal_emits (cfg : Config) (ex : Exchange) (s s' : State) (sig : Signal) :
  check_signal cfg ex s = (Ok (Some sig), s') ->
  exists ohlcv latest trend s1,
    fetch_ohlcv ex (clock s) (SYMBOL cfg) (TIMEFRAME cfg) 100 = Some ohlcv /\
    (exists c, In c ohlcv /\ close latest = Candle.close c) /\
    nth_error (DataFrame ohlcv) (length ohlcv - 2) = Some latest /\
    get_daily_trend ex (SYMBOL cfg) (advance s) = (Ok trend, s1) /\
    entry_decision cfg ex trend latest s1 = (Ok (Some sig), s').
Proof.
  unfold check_signal, try_except, bind. rewrite get_data_run.
  destruct (fetch_ohlcv ex (clock s) (SYMBOL cfg) (TIMEFRAME cfg) 100) as [ohlcv |];
    [| discriminate].
  destruct (get_daily_trend_returns ex (SYMBOL cfg) (advance s)) as (trend & s1 & Htrend).
  rewrite Htrend, iloc_second_last, length_DataFrame.
  destruct (2 <=? length ohlcv)%nat; [| discriminate].
  destruct (nth_error (DataFrame ohlcv) (length ohlcv - 2)) as [latest |] eqn:Hlatest;
    [| discriminate].
  intros H. exists ohlcv, latest, trend, s1.
  split; [reflexivity |]. split; [| split; [exact Hlatest | split; [reflexivity |]]].
  - apply nth_error_DataFrame in Hlatest as (c & Hc & ->).
    exists c. split; [now apply nth_error_In in Hc | reflexivity].
  - destruct (entry_decision cfg ex trend latest s1) as [[r | e] s2];
      [exact H | discriminate].
Qed.

Lemma entry_decision_emits (cfg : Config) (ex : Exchange) (trend : Trend)
    (latest : Row) (s1 s' : State) (sig : Signal) :
  entry_decision cfg ex trend latest s1 = (Ok (Some sig), s') ->
  (trend = bullish /\
   exists balance s2,
     get_balance cfg ex "USDT" s1 = (Ok balance, s2) /\
     sig = {| side := "buy"; amount := buy_amount cfg balance (close latest) |}) \/
  (trend = bearish /\
   exists balance s2 a s3,
     get_balance cfg ex "ETH" s1 = (Ok balance, s2) /\
     sell_amount cfg balance s2 = (Ok a, s3) /\
     sig = {| side := "sell"; amount := a |}).
Proof.
  unfold entry_decision.
  destruct (low_volume cfg latest); [discriminate |].
  destruct trend; simpl.
  - destruct (lt (close latest) (sma_200 latest)); [discriminate |].
    destruct (_ && _); [| discriminate].
    unfold bind at 1.
    destruct (get_balance cfg ex "USDT" s1) as [[balance | e] s2] eqn:Hbalance;
      [| discriminate].
    intros [= <- _]. left. split; [reflexivity |]. exists balance, s2. auto.
  - destruct (_ && _); [| discriminate].
    unfold bind at 1.
    destruct (get_balance cfg ex "ETH" s1) as [[balance | e] s2] eqn:Hbalance;
      [| discriminate].
    unfold bind at 1.
    destruct (sell_amount cfg balance s2) as [[a | e] s3] eqn:Hsell;
      [| discriminate].
    intros [= <- _]. right. split; [reflexivity |].
    exists balance, s2, a, s3. auto.
  - discriminate.
Qed.

(** ** A stop-loss percentage of zero *)

Lemma sell_amount_zero_stop (cfg : Config) (S : Q) (balance : num) (st : State) :
  STOP_LOSS_PCT cfg = Fin S -> S == 0 ->
  sell_amount cfg balance st = (Raise ZeroDivisionError, st).
Proof.
  intros HS Hzero. unfold sell_amount, bind, py_truediv.
  rewrite HS, div_hundred.
  assert (H : Qeq_bool (Qred (S / 100)) 0 = true).
  { apply Qeq_bool_zero. rewrite Qred_correct, Hzero. reflexivity. }
  now rewrite H.
Qed.

(** C4, as the code has it: the code has no InvalidConfiguration error.  With
    a stop-loss percentage of zero the sizing of a short position raises
    [ZeroDivisionError]; [check_signal] catches it as it catches every
    exception, so the cycle is never aborted: [check_signal] always returns,
    and under a bearish regime it returns no signal. *)
Theorem zero_stop_is_downgraded (cfg : Config) (ex : Exchange) (S : Q) :
  STOP_LOSS_PCT cfg = Fin S ->
  S == 0 ->
  (forall balance st,
      sell_amount cfg balance st = (Raise ZeroDivisionError, st)) /\
  forall s,
    (exists r s', check_signal cfg ex s = (Ok r, s')) /\
    (forall s1,
        get_daily_trend ex (SYMBOL cfg) (advance s) = (Ok bearish, s1) ->
        fst (check_signal cfg ex s) = Ok None).
Proof.
  intros HS Hzero. split.
  - intros balance st. now apply (sell_amount_zero_stop cfg S).
  - intros s. split; [apply check_signal_returns |].
    intros s1 Htrend.
    destruct (check_signal_returns cfg ex s) as ([sig |] & s' & Hrun);
      rewrite Hrun; [| reflexivity].
    exfalso.
    apply check_signal_emits in Hrun
      as (ohlcv & latest & trend & s1' & _ & _ & _ & Htrend' & Hdecision).
    rewrite Htrend in Htrend'. injection Htrend' as <- <-.
    apply entry_decision_emits in Hdecision
      as [[Hbull _] | (_ & balance & s2 & a & s3 & _ & Hsell & _)].
    + discriminate.
    + rewrite (sell_amount_zero_stop cfg S) in Hsell by assumption. discriminate.
Qed.

Lemma zero_stop_is_downgraded_witness :
  (forall balance st,
      sell_amount zero_stop_config balance st = (Raise ZeroDivisionError, st)) /\
  forall s,
    (exists r s',
        check_signal zero_stop_config (sample_exchange daily_flat (rising 16) None) s
        = (Ok r, s')) /\
    (forall s1,
        get_daily_trend (sample_exchange daily_flat (rising 16) None)
          (SYMBOL zero_stop_config) (advance s) = (Ok bearish, s1) ->
        fst (check_signal zero_stop_config
               (sample_exchange daily_flat (rising 16) None) s) = Ok None).
Proof.
  apply (zero_stop_is_downgraded zero_stop_config
           (sample_exchange daily_flat (rising 16) None) 0); reflexivity.
Defined.

(** C4 as stated fails: with a stop-loss percentage of zero, a short entry
    divides by zero, and the error is downgraded to "no signal" with a log
    entry; a long entry does not fail at all. *)
Lemma zero_stop_no_invalid_configuration :
  check_signal zero_stop_config (sample_exchange daily_flat (rising 16) None)
    initial_state
  = (Ok None,
     with_log (advance (advance initial_state)) (SignalCheckError ZeroDivisionError)) /\
  fst (check_signal zero_stop_config (sample_exchange daily_rally (falling 16) None)
         initial_state)
  = Ok (Some {| side := "buy"; amount := PInf |}).
Proof. split; vm_compute; reflexivity. Qed.

(** ** The sign of an emitted quantity *)

Lemma positive_finite_inv (x : num) :
  positive_finite x = true -> exists q, x = Fin q /\ 0 < q.
Proof.
  destruct x as [q | | |]; try discriminate. simpl. unfold Qltb.
  intros H. exists q. split; [reflexivity |].
  destruct (Qle_bool q 0) eqn:E; [discriminate |].
  apply Qnot_le_lt. intros Hle. apply Qle_bool_iff in Hle. congruence.
Qed.

Lemma positive_finite_intro (q : Q) : 0 < q -> positive_finite (Fin q) = true.
Proof.
  intros H. simpl. unfold Qltb. destruct (Qle_bool q 0) eqn:E; [| reflexivity].
  apply Qle_bool_iff in E. lra.
Qed.

Lemma get_balance_positive (cfg : Config) (ex : Exchange) (asset : string) (s s' : State)
    (balance : num) :
  reports_positive_balance cfg ex ->
  get_balance cfg ex asset s = (Ok balance, s') ->
  exists b, balance = Fin b /\ 0 < b.
Proof.
  intros [Hpaper | Hlive]; unfold get_balance.
  - rewrite Hpaper. intros [= <- _]. exists 1000. split; [reflexivity | lra].
  - destruct (PAPER_TRADING cfg).
    + intros [= <- _]. exists 1000. split; [reflexivity | lra].
    + destruct (Hlive (clock s) asset) as (free & b & Hfree & Hasset & Hpos).
      unfold try_except, bind, tick, answer. rewrite Hfree. simpl. rewrite Hasset.
      intros [= <- _]. now apply positive_finite_inv.
Qed.

Lemma Qdiv_pos (a b : Q) : 0 < a -> 0 < b -> 0 < a / b.
Proof.
  intros Ha Hb. apply Qlt_shift_div_l; [assumption | lra].
Qed.

(** C9, as the code has it: a signal returned by [check_signal] has a
    strictly positive (and finite) quantity whenever the risk and stop-loss
    percentages are positive, the balance obtained by [get_balance] is
    positive (paper trading, or a live balance that is fetched and positive)
    and the candles close at positive prices. *)
Theorem emitted_quantity_positive (cfg : Config) (ex : Exchange) (R S : Q)
    (s s' : State) (sig : Signal) :
  RISK_PERCENT cfg = Fin R -> 0 < R ->
  STOP_LOSS_PCT cfg = Fin S -> 0 < S ->
  reports_positive_balance cfg ex ->
  serves_positive_closes ex ->
  check_signal cfg ex s = (Ok (Some sig), s') ->
  positive_finite (amount sig) = true.
Proof.
  intros HR HRpos HS HSpos Hbalance Hcloses Hrun.
  apply check_signal_emits in Hrun
    as (ohlcv & latest & trend & s1 & Hfetch & (c & Hin & Hclose) & _ & _ & Hdecision).
  assert (Hprice : exists p, close latest = Fin p /\ 0 < p).
  { apply positive_finite_inv. rewrite Hclose.
    apply Hcloses in Hfetch. rewrite forallb_forall in Hfetch. now apply Hfetch. }
  destruct Hprice as (p & Hp & Hppos).
  assert (Hr : 0 < R / 100) by (apply Qdiv_pos; lra).
  assert (Hs : 0 < S / 100) by (apply Qdiv_pos; lra).
  apply entry_decision_emits in Hdecision
    as [(_ & balance & s2 & Hget & ->)
       | (_ & balance & s2 & a & s3 & Hget & Hsell & ->)];
    apply (get_balance_positive cfg ex _ _ _ _ Hbalance) in Hget as (b & -> & Hb); simpl.
  - rewrite Hp.
    rewrite (buy_amount_formula cfg R S (R / 100) (S / 100)
               HR HS (Qeq_refl _) (Qeq_refl _) Hs b p Hppos).
    apply positive_finite_intro. rewrite Qred_correct.
    apply Qmult_lt_0_compat; [| lra].
    apply Qdiv_pos; apply Qmult_lt_0_compat; assumption.
  - rewrite (sell_amount_formula cfg R S (R / 100) (S / 100)
               HR HS (Qeq_refl _) (Qeq_refl _) Hs b s2) in Hsell.
    injection Hsell as <- _.
    apply positive_finite_intro. rewrite Qred_correct.
    apply Qmult_lt_0_compat; [| lra].
    apply Qdiv_pos; [apply Qmult_lt_0_compat |]; assumption.
Qed.

Lemma emitted_quantity_positive_witness :
  check_signal default_config (sample_exchange daily_flat (rising 16) None) initial_state
  = (Ok (Some {| side := "sell"; amount := Fin (2375 # 3) |}),
     with_log (advance (advance initial_state)) BearishReversionSignal) /\
  positive_finite (Fin (2375 # 3)) = true.
Proof.
  assert (Hrun :
    check_signal default_config (sample_exchange daily_flat (rising 16) None) initial_state
    = (Ok (Some {| side := "sell"; amount := Fin (2375 # 3) |}),
       with_log (advance (advance initial_state)) BearishReversionSignal)).
  { vm_compute. reflexivity. }
  split; [exact Hrun |].
  refine (emitted_quantity_positive default_config
            (sample_exchange daily_flat (rising 16) None) 1 (12 # 10)
            initial_state _ _ eq_refl _ eq_refl _ _ _ Hrun).
  - reflexivity.
  - reflexivity.
  - left. reflexivity.
  - intros t symbol timeframe limit ohlcv. unfold sample_exchange, fetch_ohlcv.
    destruct (String.eqb timeframe "1d"); intros [= <-]; vm_compute; reflexivity.
Defined.

(** C9 as stated fails: trading live, a balance fetch that fails (or a
    reported balance of zero) yields a buy signal whose quantity is zero. *)
Lemma zero_balance_zero_quantity :
  fst (check_signal live_config (sample_exchange daily_rally (falling 16) None)
         initial_state)
  = Ok (Some {| side := "buy"; amount := Fin 0 |}) /\
  fst (check_signal live_config
         (sample_exchange daily_rally (falling 16) (Some (fun _ => Some zero)))
         initial_state)
  = Ok (Some {| side := "buy"; amount := Fin 0 |}) /\
  positive_finite (Fin 0) = false.
Proof. repeat split; vm_compute; reflexivity. Qed.

(** ** The columns are causal: a row does not depend on later candles *)

Lemma window_at_app (w : nat) (xs ys : list num) (i : nat) :
  (i < length xs)%nat -> (w <= i + 1)%nat ->
  window_at w (xs ++ ys) i = window_at w xs i.
Proof.
  intros Hi Hw. unfold window_at.
  rewrite skipn_app, firstn_app, length_skipn.
  replace (w - (length xs - (i + 1 - w)))%nat with 0%nat by lia.
  now rewrite firstn_O, app_nil_r.
Qed.

Lemma rolling_mean_at_app (w : nat) (xs ys : list num) (i : nat) :
  (i < length xs)%nat ->
  rolling_mean_at w (xs ++ ys) i = rolling_mean_at w xs i.
Proof.
  intros Hi. unfold rolling_mean_at.
  destruct (Nat.leb_spec w (i + 1)); [| reflexivity].
  now rewrite window_at_app.
Qed.

Lemma rolling_mean_app (w : nat) (xs ys : list num) :
  exists rest, rolling_mean w (xs ++ ys) = rolling_mean w xs ++ rest.
Proof.
  unfold rolling_mean. rewrite length_app, seq_app, map_app.
  eexists. f_equal. apply map_ext_in. intros i Hi. apply in_seq in Hi.
  apply rolling_mean_at_app. lia.
Qed.

Lemma diff_from_app (prev : num) (xs ys : list num) :
  exists rest, diff_from prev (xs ++ ys) = diff_from prev xs ++ rest.
Proof.
  revert prev. induction xs as [| x xs IH]; intros prev; simpl.
  - now eexists.
  - destruct (IH x) as (rest & ->). now exists rest.
Qed.

Lemma diff_app (xs ys : list num) :
  exists rest, diff (xs ++ ys) = diff xs ++ rest.
Proof.
  destruct xs as [| x xs]; simpl.
  - now eexists.
  - destruct (diff_from_app x xs ys) as (rest & ->). now exists rest.
Qed.

Lemma length_diff_from (prev : num) (xs : list num) :
  length (diff_from prev xs) = length xs.
Proof. revert prev. induction xs; intros; simpl; [reflexivity | now rewrite IHxs]. Qed.

Lemma length_diff (xs : list num) : length (diff xs) = length xs.
Proof. destruct xs; simpl; [reflexivity | now rewrite length_diff_from]. Qed.

Lemma length_avg_gain (xs : list num) (period : nat) :
  length (avg_gain xs period) = length xs.
Proof.
  unfold avg_gain, where_. now rewrite length_rolling_mean, length_map, length_diff.
Qed.

Lemma length_avg_loss (xs : list num) (period : nat) :
  length (avg_loss xs period) = length xs.
Proof.
  unfold avg_loss, where_. now rewrite length_rolling_mean, !length_map, length_diff.
Qed.

Lemma avg_gain_app (xs ys : list num) (period : nat) :
  exists rest, avg_gain (xs ++ ys) period = avg_gain xs period ++ rest.
Proof.
  unfold avg_gain, where_. destruct (diff_app xs ys) as (rest & ->).
  rewrite map_app. apply rolling_mean_app.
Qed.

Lemma avg_loss_app (xs ys : list num) (period : nat) :
  exists rest, avg_loss (xs ++ ys) period = avg_loss xs period ++ rest.
Proof.
  unfold avg_loss, where_. destruct (diff_app xs ys) as (rest & ->).
  rewrite !map_app. apply rolling_mean_app.
Qed.

Lemma zip_with_app (f : num -> num -> num) (a b ra rb : list num) :
  length a = length b ->
  zip_with f (a ++ ra) (b ++ rb) = zip_with f a b ++ zip_with f ra rb.
Proof.
  revert b. induction a as [| x a IH]; intros [| y b] H; try discriminate; simpl.
  - reflexivity.
  - f_equal. apply IH. now injection H.
Qed.

Lemma length_zip_with (f : num -> num -> num) (a b : list num) :
  length a = length b -> length (zip_with f a b) = length a.
Proof.
  revert b. induction a as [| x a IH]; intros [| y b] H; try discriminate; simpl.
  - reflexivity.
  - f_equal. apply IH. now injection H.
Qed.

Lemma length_calculate_rsi (xs : list num) (period : nat) :
  length (calculate_rsi xs period) = length xs.
Proof.
  unfold calculate_rsi. cbv zeta. rewrite length_map, length_zip_with.
  - apply length_avg_gain.
  - now rewrite length_avg_gain, length_avg_loss.
Qed.

Lemma calculate_rsi_app (xs ys : list num) (period : nat) :
  exists rest, calculate_rsi (xs ++ ys) period = calculate_rsi xs period ++ rest.
Proof.
  unfold calculate_rsi. cbv zeta.
  destruct (avg_gain_app xs ys period) as (rg & ->).
  destruct (avg_loss_app xs ys period) as (rl & ->).
  rewrite zip_with_app by now rewrite length_avg_gain, length_avg_loss.
  rewrite map_app. now eexists.
Qed.

Lemma DataFrame_prefix (xs ys : list Candle.t) (k : nat) :
  (k < length xs)%nat ->
  nth_error (DataFrame (xs ++ ys)) k = nth_error (DataFrame xs) k.
Proof.
  intros Hk. unfold DataFrame. rewrite !nth_error_rows_from. simpl.
  rewrite nth_error_app1 by assumption.
  destruct (nth_error xs k) as [c |]; [| reflexivity]. simpl.
  rewrite !map_app.
  destruct (rolling_mean_app 20 (map Candle.volume xs) (map Candle.volume ys)) as (r1 & ->).
  destruct (rolling_mean_app 200 (map Candle.close xs) (map Candle.close ys)) as (r2 & ->).
  destruct (calculate_rsi_app (map Candle.close xs) (map Candle.close ys) 14) as (r3 & ->).
  rewrite !app_nth1; [reflexivity | | |].
  - now rewrite length_calculate_rsi, length_map.
  - now rewrite length_rolling_mean, length_map.
  - now rewrite length_rolling_mean, length_map.
Qed.

(** ** The decision candle *)

Lemma length_set_last (series : list Candle.t) (final : Candle.t) :
  series <> [] -> length (set_last series final) = length series.
Proof.
  intros H. unfold set_last. rewrite length_app. simpl.
  destruct (exists_last H) as (pre & x & ->).
  rewrite removelast_last, length_app. reflexivity.
Qed.

Lemma second_last_set_last (series : list Candle.t) (final : Candle.t) :
  (2 <= length series)%nat ->
  nth_error (DataFrame (set_last series final)) (length series - 2)
  = nth_error (DataFrame series) (length series - 2).
Proof.
  intros Hlen. assert (Hne : series <> []) by (intros ->; simpl in Hlen; lia).
  unfold set_last. destruct (exists_last Hne) as (pre & x & ->).
  rewrite removelast_last. rewrite length_app in *. simpl in *.
  rewrite !DataFrame_prefix by lia. reflexivity.
Qed.

Lemma get_daily_trend_with_ohlcv (ex : Exchange) (t0 : nat)
    (answer0 : option (list Candle.t)) (symbol : string) (st : State) :
  clock st <> t0 ->
  get_daily_trend (with_ohlcv ex t0 answer0) symbol st = get_daily_trend ex symbol st.
Proof.
  intros Hclock. unfold get_daily_trend, try_except, bind.
  rewrite !get_data_run. simpl.
  apply Nat.eqb_neq in Hclock. now rewrite Hclock.
Qed.

Lemma check_signal_with_ohlcv (cfg : Config) (ex : Exchange) (s : State)
    (series : list Candle.t) :
  check_signal cfg (with_ohlcv ex (clock s) (Some series)) s =
  try_except
    (daily_trend <- get_daily_trend ex (SYMBOL cfg) ;;
     latest <- iloc (DataFrame series) (-2) ;;
     entry_decision cfg ex daily_trend latest)
    (fun e => log (SignalCheckError e) ;; ret None) (advance s).
Proof.
  unfold check_signal, try_except. unfold bind at 1 5.
  rewrite get_data_run. simpl fetch_ohlcv. rewrite Nat.eqb_refl.
  unfold bind at 1 4.
  rewrite get_daily_trend_with_ohlcv by (simpl; lia).
  reflexivity.
Qed.

(** C2: on a fetched working series of N >= 2 candles, the candle on which
    [check_signal] decides is the row at index N-2: what [check_signal]
    returns is the outcome of the volume gate, the trend gate and the entry
    test on the cells of that row.  That row and the whole outcome of
    [check_signal] stay the same when the final candle of the series is
    replaced by any other candle: the final row takes part in no gate and no
    entry test. *)
Theorem decision_candle_is_second_last (cfg : Config) (ex : Exchange) (s : State)
    (series : list Candle.t) :
  (2 <= length series)%nat ->
  loads series = true ->
  exists latest,
    nth_error (DataFrame series) (length series - 2) = Some latest /\
    (forall st, iloc (DataFrame series) (-2) st = (Ok latest, st)) /\
    (forall trend s1,
        get_daily_trend ex (SYMBOL cfg) (advance s) = (Ok trend, s1) ->
        check_signal cfg (with_ohlcv ex (clock s) (Some series)) s
        = decision_outcome cfg ex trend latest s1) /\
    forall final,
      in_datetime_range (Candle.timestamp final) = true ->
      nth_error (DataFrame (set_last series final)) (length series - 2) = Some latest /\
      check_signal cfg (with_ohlcv ex (clock s) (Some (set_last series final))) s
      = check_signal cfg (with_ohlcv ex (clock s) (Some series)) s.
Proof.
  intros Hlen _. assert (Hne : series <> []) by (intros ->; simpl in Hlen; lia).
  destruct (nth_error (DataFrame series) (length series - 2)) as [latest |] eqn:Hlatest.
  2:{ apply nth_error_None in Hlatest. rewrite length_DataFrame in Hlatest. lia. }
  assert (Hiloc : forall series' st,
             length series' = length series ->
             nth_error (DataFrame series') (length series - 2) = Some latest ->
             iloc (DataFrame series') (-2) st = (Ok latest, st)).
  { intros series' st Hlen' Hnth.
    rewrite iloc_second_last, length_DataFrame, Hlen', Hnth.
    destruct (Nat.leb_spec 2 (length series)); [reflexivity | lia]. }
  exists latest. split; [reflexivity |]. split; [| split].
  - intros st. now apply Hiloc.
  - intros trend s1 Htrend.
    rewrite check_signal_with_ohlcv. unfold try_except at 1, bind at 1.
    rewrite Htrend. unfold bind at 1. rewrite (Hiloc series s1 eq_refl Hlatest).
    exact (entry_decision_outcome cfg ex trend latest s1).
  - intros final _.
    assert (Hnth : nth_error (DataFrame (set_last series final)) (length series - 2)
                   = Some latest)
      by (now rewrite second_last_set_last).
    split; [exact Hnth |].
    rewrite !check_signal_with_ohlcv. unfold try_except, bind.
    destruct (get_daily_trend ex (SYMBOL cfg) (advance s)) as [[trend | e] s1];
      [| reflexivity].
    rewrite (Hiloc series s1 eq_refl Hlatest).
    rewrite (Hiloc (set_last series final) s1 (length_set_last series final Hne) Hnth).
    reflexivity.
Qed.

Lemma decision_candle_is_second_last_witness :
  exists latest,
    nth_error (DataFrame (rising 16)) (length (rising 16) - 2) = Some latest /\
    (forall st, iloc (DataFrame (rising 16)) (-2) st = (Ok latest, st)) /\
    (forall trend s1,
        get_daily_trend (sample_exchange daily_flat [] None) (SYMBOL default_config)
          (advance initial_state) = (Ok trend, s1) ->
        check_signal default_config
          (with_ohlcv (sample_exchange daily_flat [] None) (clock initial_state)
             (Some (rising 16))) initial_state
        = decision_outcome default_config (sample_exchange daily_flat [] None)
            trend latest s1) /\
    forall final,
      in_datetime_range (Candle.timestamp final) = true ->
      nth_error (DataFrame (set_last (rising 16) final)) (length (rising 16) - 2)
      = Some latest /\
      check_signal default_config
        (with_ohlcv (sample_exchange daily_flat [] None) (clock initial_state)
           (Some (set_last (rising 16) final))) initial_state
      = check_signal default_config
          (with_ohlcv (sample_exchange daily_flat [] None) (clock initial_state)
             (Some (rising 16))) initial_state.
Proof.
  apply (decision_candle_is_second_last default_config
           (sample_exchange daily_flat [] None) initial_state (rising 16)).
  - vm_compute. lia.
  - vm_compute. reflexivity.
Defined.

(** The row at index N-2 does decide: [rising_green] is [rising 16] with that
    one candle changed (index 14 of 16), and the sell signal is gone; with
    the final candle changed instead, the signal stays. *)
Example decision_candle_matters :
  firstn 14 rising_green = firstn 14 (rising 16) /\
  skipn 15 rising_green = skipn 15 (rising 16) /\
  fst (check_signal default_config (sample_exchange daily_flat (rising 16) None)
         initial_state)
  = Ok (Some {| side := "sell"; amount := Fin (2375 # 3) |}) /\
  fst (check_signal default_config (sample_exchange daily_flat rising_green None)
         initial_state)
  = Ok None /\
  fst (check_signal default_config
         (sample_exchange daily_flat (set_last (rising 16) (flat_candle 1)) None)
         initial_state)
  = Ok (Some {| side := "sell"; amount := Fin (2375 # 3) |}).
Proof. repeat split; vm_compute; reflexivity. Qed.

(** ** The relative-strength index *)

Lemma nth_zip_with (f : num -> num -> num) (a b : list num) (i : nat) :
  length a = length b -> (i < length a)%nat ->
  nth i (zip_with f a b) NaN = f (nth i a NaN) (nth i b NaN).
Proof.
  revert b i. induction a as [| x a IH]; intros [| y b] i Hlen Hi;
    try discriminate; simpl in *; [lia |].
  destruct i as [| i]; [reflexivity |]. apply IH; [now injection Hlen | lia].
Qed.

Lemma nth_calculate_rsi (series : list num) (period i : nat) :
  (i < length series)%nat ->
  nth i (calculate_rsi series period) NaN
  = rsi_cell (nth i (avg_gain series period) NaN) (nth i (avg_loss series period) NaN).
Proof.
  intros Hi. unfold calculate_rsi. cbv zeta.
  assert (Hlen : length (avg_gain series period) = length (avg_loss series period))
    by now rewrite length_avg_gain, length_avg_loss.
  rewrite (nth_indep _ NaN (sub hundred (div hundred (add one NaN)))).
  - rewrite (map_nth (fun r => sub hundred (div hundred (add one r)))
               (zip_with div (avg_gain series period) (avg_loss series period)) NaN i).
    unfold rsi_cell. rewrite nth_zip_with; [reflexivity | assumption |].
    now rewrite length_avg_gain.
  - rewrite length_map, length_zip_with by assumption. now rewrite length_avg_gain.
Qed.










(** On a finite series every cell of [diff] is finite or undefined. *)







(** On sixteen rising closes the loss average is zero and the RSI is 100. *)
Example rsi_rising :
  nth 14 (avg_loss (map Candle.close (rising 16)) 14) NaN = Fin 0 /\
  nth 14 (avg_gain (map Candle.close (rising 16)) 14) NaN = Fin 1 /\
  nth 14 (calculate_rsi (map Candle.close (rising 16)) 14) NaN = Fin 100.
Proof. repeat split; vm_compute; reflexivity. Qed.

(* ------------------------------------------------------------------ *)
(** * Further properties of the program *)

(** ** Notifications *)

(** X1: [send_alert] never raises.  It hands no order to the exchange, and
    either posts exactly the given message or posts nothing; without both
    credentials (unset or empty) it does nothing at all, and a request that
    fails leaves a log entry instead of an exception. *)
Theorem send_alert_swallows_failures (cfg : Config) (ex : Exchange)
    (message : Alert) (s : State) :
  exists s',
    send_alert cfg ex message s = (Ok tt, s') /\
    submitted s' = submitted s /\
    (truthy (TELEGRAM_BOT_TOKEN cfg) && truthy (TELEGRAM_CHAT_ID cfg) = false ->
     s' = s) /\
    (truthy (TELEGRAM_BOT_TOKEN cfg) && truthy (TELEGRAM_CHAT_ID cfg) = true ->
     if requests_post ex (clock s)
     then posted s' = posted s ++ [message] /\ logged s' = logged s
     else posted s' = posted s /\
          logged s' = logged s ++ [TelegramFailed RequestError]).
Proof.
  unfold send_alert.
  destruct (truthy (TELEGRAM_BOT_TOKEN cfg) && truthy (TELEGRAM_CHAT_ID cfg)).
  - cbv [try_except bind tick]. destruct (requests_post ex (clock s)) eqn:Hpost.
    + eexists. split; [reflexivity |]. split; [reflexivity |].
      split; [discriminate |]. intros _. split; reflexivity.
    + eexists. split; [reflexivity |]. split; [reflexivity |].
      split; [discriminate |]. intros _. split; reflexivity.
  - exists s. split; [reflexivity |]. split; [reflexivity |].
    split; [reflexivity | discriminate].
Qed.

Lemma send_alert_swallows_failures_witness :
  exists s',
    send_alert notifying_config failing_exchange (OrderFailedAlert OrderError)
      initial_state = (Ok tt, s') /\
    posted s' = [] /\
    logged s' = [TelegramFailed RequestError].
Proof.
  destruct (send_alert_swallows_failures notifying_config failing_exchange
              (OrderFailedAlert OrderError) initial_state)
    as (s' & Hrun & _ & _ & Hon).
  exists s'. split; [exact Hrun |]. exact (Hon eq_refl).
Defined.

(** ** The account balance *)

(** X2: [get_balance] never raises and touches neither orders nor alerts.
    On paper it is 1000 without any call to the exchange; live, a failed
    fetch gives 0 with a log entry, an asset missing from the answer gives 0,
    and otherwise the reported free balance is returned. *)
Theorem get_balance_cases (cfg : Config) (ex : Exchange) (asset : string) (s : State) :
  exists balance s',
    get_balance cfg ex asset s = (Ok balance, s') /\
    submitted s' = submitted s /\ posted s' = posted s /\
    (PAPER_TRADING cfg = true -> balance = of_Z 1000 /\ s' = s) /\
    (PAPER_TRADING cfg = false ->
     match fetch_balance ex (clock s) with
     | None =>
         balance = zero /\
         s' = with_log (advance s) (BalanceFetchFailed FetchError)
     | Some free =>
         s' = advance s /\
         match free asset with
         | Some b => balance = b
         | None => balance = zero
         end
     end).
Proof.
  unfold get_balance. destruct (PAPER_TRADING cfg).
  - exists (of_Z 1000), s. split; [reflexivity |].
    split; [reflexivity |]. split; [reflexivity |].
    split; [intros _; split; reflexivity | discriminate].
  - cbv [try_except bind tick answer].
    destruct (fetch_balance ex (clock s)) as [free |] eqn:Hfetch; simpl.
    + eexists; eexists. split; [reflexivity |].
      split; [reflexivity |]. split; [reflexivity |]. split; [discriminate |].
      intros _. split; [reflexivity |]. destruct (free asset); reflexivity.
    + eexists; eexists. split; [reflexivity |].
      split; [reflexivity |]. split; [reflexivity |]. split; [discriminate |].
      intros _. split; reflexivity.
Qed.

Lemma get_balance_cases_witness :
  get_balance live_config failing_exchange "USDT" initial_state
  = (Ok zero, with_log (advance initial_state) (BalanceFetchFailed FetchError)).
Proof.
  destruct (get_balance_cases live_config failing_exchange "USDT" initial_state)
    as (balance & s' & Hrun & _ & _ & _ & Hlive).
  destruct (Hlive eq_refl) as [-> ->]. exact Hrun.
Defined.

(** ** Live orders *)

Lemma send_alert_ok (cfg : Config) (ex : Exchange) (message : Alert) (s : State) :
  fst (send_alert cfg ex message s) = Ok tt.
Proof.
  unfold send_alert. destruct (_ && _); [| reflexivity].
  cbv [try_except bind tick]. destruct (requests_post ex (clock s)); reflexivity.
Qed.

Lemma send_alert_submitted (cfg : Config) (ex : Exchange) (message : Alert) (s : State) :
  submitted (snd (send_alert cfg ex message s)) = submitted s.
Proof.
  unfold send_alert. destruct (_ && _); [| reflexivity].
  cbv [try_except bind tick]. destruct (requests_post ex (clock s)); reflexivity.
Qed.

Lemma send_alert_logged (cfg : Config) (ex : Exchange) (message : Alert) (s : State)
    (m : LogMsg) :
  In m (logged s) -> In m (logged (snd (send_alert cfg ex message s))).
Proof.
  unfold send_alert. destruct (_ && _); [| auto].
  cbv [try_except bind tick]. destruct (requests_post ex (clock s)); simpl; [auto |].
  intros H. apply in_or_app. now left.
Qed.

(** What [place_order] does live, by the answer of the exchange to the
    order it submits from the state [s]: every side other than "buy" is sent
    as a sell. *)
Lemma place_order_live_run (cfg : Config) (ex : Exchange) (side symbol : string)
    (amount : num) (s : State) :
  PAPER_TRADING cfg = false ->
  let s1 := {| clock := S (clock s); submitted := submitted s ++ [(side, symbol, amount)];
               posted := posted s; logged := logged s |} in
  let failed e st :=
    (Ok false, snd (send_alert cfg ex (OrderFailedAlert e) (with_log st (OrderFailed e)))) in
  place_order cfg ex side symbol amount s =
  match (if String.eqb side "buy"
         then create_market_buy_order ex (clock s) symbol amount
         else create_market_sell_order ex (clock s) symbol amount) with
  | Some (Filled price) =>
      let stop := div (STOP_LOSS_PCT cfg) hundred in
      let target := div (mul (TAKE_PROFIT_RATIO cfg) (STOP_LOSS_PCT cfg)) hundred in
      (Ok true,
       snd (send_alert cfg ex
              (LiveAlert side amount symbol
                 (if String.eqb side "buy" then mul price (sub one stop)
                  else mul price (add one stop))
                 (if String.eqb side "buy" then mul price (add one target)
                  else mul price (sub one target)))
              (with_log s1 (LiveOrderPlaced side amount symbol))))
  | Some NoAverage => failed TypeError (with_log s1 (LiveOrderPlaced side amount symbol))
  | Some NoAverageKey => failed KeyError (with_log s1 (LiveOrderPlaced side amount symbol))
  | None => failed OrderError s1
  end.
Proof.
  intros Hlive. unfold place_order. rewrite Hlive.
  cbv [try_except bind tick record_submission answer log with_log getitem_average].
  cbn [clock submitted posted logged].
  destruct (if String.eqb side "buy" then _ else _) as [[price | |] |];
    cbv [ret raise py_mul]; cbv zeta;
    try destruct (String.eqb side "buy");
    match goal with |- context [send_alert cfg ex ?a ?st] =>
      pose proof (send_alert_ok cfg ex a st) as Hok;
      destruct (send_alert cfg ex a st) as [[[] | e] s2] eqn:Hsent end;
    try discriminate;
    f_equal; change s2 with (snd (Ok tt, s2)); rewrite <- Hsent; reflexivity.
Qed.

(** X3: trading live, [place_order] never raises and hands exactly one order
    to the exchange (a sell for every side other than "buy").  It returns
    [True] exactly when the exchange accepts the order and the order carries
    an average fill price; a rejected order, and an accepted order whose
    average price is [None] or missing, are logged as failed and give
    [False]. *)
Theorem place_order_live (cfg : Config) (ex : Exchange) (side symbol : string)
    (amount : num) (s : State) :
  PAPER_TRADING cfg = false ->
  let answer0 :=
    if String.eqb side "buy"
    then create_market_buy_order ex (clock s) symbol amount
    else create_market_sell_order ex (clock s) symbol amount in
  let s' := snd (place_order cfg ex side symbol amount s) in
  fst (place_order cfg ex side symbol amount s) = Ok (priced answer0) /\
  submitted s' = submitted s ++ [(side, symbol, amount)] /\
  (answer0 = None -> In (OrderFailed OrderError) (logged s')) /\
  (answer0 = Some NoAverage ->
   In (LiveOrderPlaced side amount symbol) (logged s') /\
   In (OrderFailed TypeError) (logged s')) /\
  (answer0 = Some NoAverageKey ->
   In (LiveOrderPlaced side amount symbol) (logged s') /\
   In (OrderFailed KeyError) (logged s')).
Proof.
  intros Hlive answer0 s'. subst s'.
  rewrite (place_order_live_run cfg ex side symbol amount s Hlive).
  subst answer0. cbv zeta.
  destruct (if String.eqb side "buy" then _ else _) as [[price | |] |];
    cbn [fst snd priced];
    (split; [reflexivity |]); (split; [now rewrite send_alert_submitted |]);
    (split; [try discriminate | split; try discriminate]).
  - intros _. split; apply send_alert_logged; simpl; rewrite !in_app_iff; simpl; auto.
  - intros _. split; apply send_alert_logged; simpl; rewrite !in_app_iff; simpl; auto.
  - intros _. apply send_alert_logged. simpl. rewrite !in_app_iff. simpl. auto.
Qed.

Lemma place_order_live_witness :
  fst (place_order live_config unpriced_exchange "sell" "ETH/USDT" (of_Z 3) initial_state)
  = Ok false /\
  submitted (snd (place_order live_config unpriced_exchange "sell" "ETH/USDT" (of_Z 3)
                    initial_state))
  = [("sell"%string, "ETH/USDT"%string, of_Z 3)] /\
  In (LiveOrderPlaced "sell" (of_Z 3) "ETH/USDT")
     (logged (snd (place_order live_config unpriced_exchange "sell" "ETH/USDT" (of_Z 3)
                     initial_state))) /\
  In (OrderFailed TypeError)
     (logged (snd (place_order live_config unpriced_exchange "sell" "ETH/USDT" (of_Z 3)
                     initial_state))).
Proof.
  destruct (place_order_live live_config unpriced_exchange "sell" "ETH/USDT" (of_Z 3)
              initial_state eq_refl) as (Hret & Hsub & _ & Hnone & _).
  split; [exact Hret |]. split; [exact Hsub |]. exact (Hnone eq_refl).
Defined.



(** ** Rolling means of finite cells *)

Lemma fold_add_Fin (qs : list Q) :
  forall a, exists t, fold_left add (map Fin qs) (Fin a) = Fin t /\ t == a + Qsum qs.
Proof.
  induction qs as [| q qs IH]; intros a.
  - exists a. split; [reflexivity |]. unfold Qsum. simpl. lra.
  - change (Qsum (q :: qs)) with (q + Qsum qs). cbn [map fold_left add].
    destruct (IH (Qred (a + q))) as (t & -> & Ht).
    exists t. split; [reflexivity |]. rewrite Ht, Qred_correct. lra.
Qed.

Lemma mean_Fin (qs : list Q) :
  qs <> [] ->
  mean (map Fin qs) = of_Q (Qsum qs / inject_Z (Z.of_nat (length qs))).
Proof.
  intros Hne. unfold mean, sum, zero, of_Z.
  destruct (fold_add_Fin qs (inject_Z 0)) as (t & -> & Ht).
  assert (Hn : 0 < inject_Z (Z.of_nat (length qs))).
  { destruct qs; [contradiction |]. unfold Qlt. simpl. lia. }
  rewrite length_map. unfold div. rewrite Qeq_bool_nonzero by lra.
  unfold of_Q. f_equal. apply Qred_complete.
  rewrite Ht. change (inject_Z 0) with 0. now rewrite Qplus_0_l.
Qed.

Lemma rolling_mean_finite (w : nat) (qs : list Q) (i : nat) :
  (0 < w)%nat -> (w <= i + 1)%nat -> (i < length qs)%nat ->
  nth i (rolling_mean w (map Fin qs)) NaN
  = of_Q (Qsum (firstn w (skipn (i + 1 - w) qs)) / inject_Z (Z.of_nat w)).
Proof.
  intros Hw Hwi Hi. rewrite nth_rolling_mean by now rewrite length_map.
  unfold rolling_mean_at. destruct (Nat.leb_spec w (i + 1)); [| lia].
  unfold window_at. rewrite skipn_map, firstn_map.
  assert (Hlen : length (firstn w (skipn (i + 1 - w) qs)) = w)
    by (rewrite length_firstn, length_skipn; lia).
  rewrite mean_Fin, Hlen; [reflexivity |].
  intros E. rewrite E in Hlen. simpl in Hlen. lia.
Qed.

(** X5: on finite closes and volumes, the long moving average of a row is
    undefined before index 199 and from there on is the arithmetic mean of
    the 200 closes ending at that row; likewise the average volume with a
    window of 20. *)
Theorem rolling_columns_are_trailing_means (ohlcv : list Candle.t)
    (closes volumes : list Q) (k : nat) (row : Row) :
  map Candle.close ohlcv = map Fin closes ->
  map Candle.volume ohlcv = map Fin volumes ->
  nth_error (DataFrame ohlcv) k = Some row ->
  sma_200 row =
    (if (200 <=? k + 1)%nat
     then of_Q (Qsum (firstn 200 (skipn (k + 1 - 200) closes)) / 200)
     else NaN) /\
  avg_volume row =
    (if (20 <=? k + 1)%nat
     then of_Q (Qsum (firstn 20 (skipn (k + 1 - 20) volumes)) / 20)
     else NaN).
Proof.
  intros Hcloses Hvolumes Hrow.
  assert (Hk : (k < length ohlcv)%nat).
  { rewrite <- length_DataFrame. apply nth_error_Some. now rewrite Hrow. }
  apply nth_error_DataFrame in Hrow as (c & _ & ->). unfold enrich_row.
  cbn [sma_200 avg_volume].
  rewrite Hcloses, Hvolumes.
  assert (Hc : length closes = length ohlcv)
    by (rewrite <- (length_map Fin closes), <- Hcloses; apply length_map).
  assert (Hv : length volumes = length ohlcv)
    by (rewrite <- (length_map Fin volumes), <- Hvolumes; apply length_map).
  split.
  - destruct (Nat.leb_spec 200 (k + 1)).
    + rewrite (rolling_mean_finite 200) by lia. reflexivity.
    + apply nth_rolling_mean_unfilled. lia.
  - destruct (Nat.leb_spec 20 (k + 1)).
    + rewrite (rolling_mean_finite 20) by lia. reflexivity.
    + apply nth_rolling_mean_unfilled. lia.
Qed.

Lemma rolling_columns_are_trailing_means_witness :
  exists row,
    nth_error (DataFrame dipping) 199 = Some row /\
    sma_200 row =
      (if (200 <=? 199 + 1)%nat
       then of_Q (Qsum (firstn 200 (skipn (199 + 1 - 200) (repeat 10 199 ++ [5; 7])))
                  / 200)
       else NaN) /\
    avg_volume row =
      (if (20 <=? 199 + 1)%nat
       then of_Q (Qsum (firstn 20 (skipn (199 + 1 - 20) (repeat 10 201))) / 20)
       else NaN).
Proof.
  assert (H : exists row, nth_error (DataFrame dipping) 199 = Some row).
  { eexists. vm_compute. reflexivity. }
  destruct H as (row & Hrow). exists row. split; [exact Hrow |].
  exact (rolling_columns_are_trailing_means dipping
           (repeat 10 199 ++ [5; 7]) (repeat 10 201) 199 row eq_refl eq_refl Hrow).
Defined.

(** ** The daily trend *)

(** X6: [get_daily_trend] turns a failed fetch and an empty daily series
    into [unknown], with a log entry that names the error; it makes exactly
    one call to the exchange. *)
Theorem get_daily_trend_degrades (ex : Exchange) (symbol : string) (s : State) :
  (fetch_ohlcv ex (clock s) symbol "1d" 50 = None ->
   get_daily_trend ex symbol s
   = (Ok unknown, with_log (advance s) (DailyTrendError FetchError))) /\
  (fetch_ohlcv ex (clock s) symbol "1d" 50 = Some [] ->
   get_daily_trend ex symbol s
   = (Ok unknown, with_log (advance s) (DailyTrendError IndexError))).
Proof.
  split; intros Hfetch; unfold get_daily_trend, try_except, bind;
    rewrite get_data_run, Hfetch; reflexivity.
Qed.

Lemma get_daily_trend_degrades_witness :
  get_daily_trend failing_exchange "ETH/USDT" initial_state
  = (Ok unknown, with_log (advance initial_state) (DailyTrendError FetchError)) /\
  get_daily_trend (sample_exchange [] [] None) "ETH/USDT" initial_state
  = (Ok unknown, with_log (advance initial_state) (DailyTrendError IndexError)).
Proof.
  split.
  - exact (proj1 (get_daily_trend_degrades failing_exchange "ETH/USDT" initial_state)
             eq_refl).
  - exact (proj2 (get_daily_trend_degrades (sample_exchange [] [] None) "ETH/USDT"
                    initial_state) eq_refl).
Defined.

Lemma Qltb_compat (a a' b b' : Q) : a == a' -> b == b' -> Qltb a b = Qltb a' b'.
Proof.
  intros Ha Hb. unfold Qltb. f_equal.
  destruct (Qle_bool b a) eqn:E1, (Qle_bool b' a') eqn:E2; try reflexivity.
  - apply Qle_bool_iff in E1. rewrite Ha, Hb in E1. apply Qle_bool_iff in E1. congruence.
  - apply Qle_bool_iff in E2. rewrite <- Ha, <- Hb in E2. apply Qle_bool_iff in E2.
    congruence.
Qed.

(** X7: on a daily series of at least 200 candles with finite closes,
    [get_daily_trend] answers [bullish] exactly when the latest close is
    strictly above the arithmetic mean of the last 200 closes, and [bearish]
    otherwise (equality included); nothing is logged. *)
Theorem get_daily_trend_classifies (ex : Exchange) (symbol : string) (s : State)
    (ohlcv : list Candle.t) (closes : list Q) :
  fetch_ohlcv ex (clock s) symbol "1d" 50 = Some ohlcv ->
  map Candle.close ohlcv = map Fin closes ->
  (200 <= length closes)%nat ->
  get_daily_trend ex symbol s =
  (Ok (if Qltb (Qsum (skipn (length closes - 200) closes) / 200)
               (nth (length closes - 1) closes 0)
       then bullish else bearish),
   advance s).
Proof.
  intros Hfetch Hcloses Hlen.
  assert (Hc : length closes = length ohlcv)
    by (rewrite <- (length_map Fin closes), <- Hcloses; apply length_map).
  unfold get_daily_trend, try_except, bind. rewrite get_data_run, Hfetch, iloc_last.
  destruct (DataFrame ohlcv) as [| r0 df0] eqn:Hdf.
  { apply (f_equal (@length Row)) in Hdf. rewrite length_DataFrame in Hdf.
    simpl in Hdf. lia. }
  rewrite <- Hdf, length_DataFrame.
  destruct (nth_error (DataFrame ohlcv) (length ohlcv - 1)) as [latest |] eqn:Hlatest.
  2:{ apply nth_error_None in Hlatest. rewrite length_DataFrame in Hlatest. lia. }
  apply nth_error_DataFrame in Hlatest as (c & Hc' & ->). unfold enrich_row.
  cbn [sma_200 close].
  rewrite Hcloses, (rolling_mean_finite 200) by lia.
  assert (Hclose : Candle.close c = Fin (nth (length closes - 1) closes 0)).
  { apply (map_nth_error Candle.close) in Hc'. rewrite Hcloses, <- Hc in Hc'.
    rewrite (nth_error_nth' (map Fin closes) NaN) in Hc' by (rewrite length_map; lia).
    injection Hc' as Hc'. rewrite <- Hc'.
    rewrite (nth_indep _ NaN (Fin 0)) by (rewrite length_map; lia).
    apply map_nth. }
  rewrite Hclose. cbn [of_Q isnan gt lt].
  replace (length ohlcv - 1 + 1 - 200)%nat with (length closes - 200)%nat by lia.
  rewrite (firstn_all2 (n := 200)) by (rewrite length_skipn; lia).
  rewrite (Qltb_compat _ (Qsum (skipn (length closes - 200) closes) / 200)
             _ (nth (length closes - 1) closes 0));
    [| apply Qred_correct | reflexivity].
  destruct (Qltb _ _); reflexivity.
Qed.

Lemma get_daily_trend_classifies_witness :
  get_daily_trend (sample_exchange daily_rally [] None) "ETH/USDT" initial_state =
  (Ok (if Qltb (Qsum (skipn (length (repeat 1 199 ++ [2]) - 200) (repeat 1 199 ++ [2]))
                / 200)
               (nth (length (repeat 1 199 ++ [2]) - 1) (repeat 1 199 ++ [2]) 0)
       then bullish else bearish),
   advance initial_state).
Proof.
  apply (get_daily_trend_classifies (sample_exchange daily_rally [] None) "ETH/USDT"
           initial_state daily_rally (repeat 1 199 ++ [2])).
  - reflexivity.
  - reflexivity.
  - vm_compute. lia.
Defined.

(** ** The evaluator on failing and short inputs *)

(** X8: when the fetch of the working series fails, [check_signal] returns
    no signal and logs the error; the daily series is not fetched (one call
    to the exchange only). *)
Theorem check_signal_fetch_fails (cfg : Config) (ex : Exchange) (s : State) :
  fetch_ohlcv ex (clock s) (SYMBOL cfg) (TIMEFRAME cfg) 100 = None ->
  check_signal cfg ex s
  = (Ok None, with_log (advance s) (SignalCheckError FetchError)).
Proof.
  intros Hfetch. unfold check_signal, try_except, bind.
  rewrite get_data_run, Hfetch. reflexivity.
Qed.

Lemma check_signal_fetch_fails_witness :
  check_signal default_config failing_exchange initial_state
  = (Ok None, with_log (advance initial_state) (SignalCheckError FetchError)).
Proof.
  exact (check_signal_fetch_fails default_config failing_exchange initial_state eq_refl).
Defined.

(** X9: on a working series of fewer than two candles there is no
    second-to-last row: after the daily trend has been computed,
    [check_signal] logs an [IndexError] and returns no signal. *)
Theorem check_signal_too_short (cfg : Config) (ex : Exchange) (s : State)
    (ohlcv : list Candle.t) :
  fetch_ohlcv ex (clock s) (SYMBOL cfg) (TIMEFRAME cfg) 100 = Some ohlcv ->
  (length ohlcv < 2)%nat ->
  exists trend s1,
    get_daily_trend ex (SYMBOL cfg) (advance s) = (Ok trend, s1) /\
    check_signal cfg ex s = (Ok None, with_log s1 (SignalCheckError IndexError)).
Proof.
  intros Hfetch Hshort.
  destruct (get_daily_trend_returns ex (SYMBOL cfg) (advance s)) as (trend & s1 & Htrend).
  exists trend, s1. split; [exact Htrend |].
  unfold check_signal, try_except, bind.
  rewrite get_data_run, Hfetch, Htrend, iloc_second_last, length_DataFrame.
  destruct (Nat.leb_spec 2 (length ohlcv)); [lia | reflexivity].
Qed.

Lemma check_signal_too_short_witness :
  exists trend s1,
    get_daily_trend (sample_exchange daily_flat [flat_candle 1] None)
      (SYMBOL default_config) (advance initial_state) = (Ok trend, s1) /\
    check_signal default_config (sample_exchange daily_flat [flat_candle 1] None)
      initial_state
    = (Ok None, with_log s1 (SignalCheckError IndexError)).
Proof.
  apply (check_signal_too_short default_config
           (sample_exchange daily_flat [flat_candle 1] None) initial_state
           [flat_candle 1]).
  - reflexivity.
  - simpl. lia.
Defined.

(** ** The warm-up of the RSI *)

Lemma rsi_unfilled (series : list num) (period i : nat) :
  (i + 1 < period)%nat -> nth i (calculate_rsi series period) NaN = NaN.
Proof.
  intros Hi. destruct (Nat.lt_ge_cases i (length series)) as [Hlen | Hlen].
  - rewrite nth_calculate_rsi by assumption.
    unfold avg_gain, avg_loss. rewrite !nth_rolling_mean_unfilled by assumption.
    reflexivity.
  - apply nth_overflow. now rewrite length_calculate_rsi.
Qed.

Lemma entry_decision_rsi_undefined (cfg : Config) (ex : Exchange) (trend : Trend)
    (latest : Row) (s : State) :
  rsi latest = NaN -> fst (entry_decision cfg ex trend latest s) = Ok None.
Proof.
  intros Hrsi. unfold entry_decision. rewrite Hrsi.
  destruct (low_volume cfg latest); [reflexivity |].
  destruct (Trend_eqb trend bullish && lt (close latest) (sma_200 latest));
    [reflexivity |].
  cbn [lt gt]. rewrite !andb_false_r. cbn [andb].
  destruct (Trend_eqb trend bullish); [reflexivity |].
  destruct (Trend_eqb trend bearish); reflexivity.
Qed.

(** X10: the RSI of the first 13 rows is undefined, so on a working series
    of fewer than 15 candles the decision candle has no RSI and
    [check_signal] returns no signal, whatever the trend and the candle. *)
Theorem check_signal_needs_warmup (cfg : Config) (ex : Exchange) (s : State)
    (ohlcv : list Candle.t) :
  fetch_ohlcv ex (clock s) (SYMBOL cfg) (TIMEFRAME cfg) 100 = Some ohlcv ->
  (length ohlcv < 15)%nat ->
  (forall k row, nth_error (DataFrame ohlcv) k = Some row -> (k < 13)%nat ->
                 rsi row = NaN) /\
  fst (check_signal cfg ex s) = Ok None.
Proof.
  intros Hfetch Hshort.
  assert (Hrsi : forall k row, nth_error (DataFrame ohlcv) k = Some row -> (k < 13)%nat ->
                               rsi row = NaN).
  { intros k row Hrow Hk. apply nth_error_DataFrame in Hrow as (c & _ & ->).
    unfold enrich_row. cbn [rsi]. apply rsi_unfilled. lia. }
  split; [exact Hrsi |].
  unfold check_signal, try_except, bind. rewrite get_data_run, Hfetch.
  destruct (get_daily_trend_returns ex (SYMBOL cfg) (advance s)) as (trend & s1 & ->).
  rewrite iloc_second_last, length_DataFrame.
  destruct (Nat.leb_spec 2 (length ohlcv)); [| reflexivity].
  destruct (nth_error (DataFrame ohlcv) (length ohlcv - 2)) as [latest |] eqn:Hlatest;
    [| reflexivity].
  pose proof (entry_decision_rsi_undefined cfg ex trend latest s1
                (Hrsi _ _ Hlatest ltac:(lia))) as Hnone.
  destruct (entry_decision cfg ex trend latest s1) as [[r | e] s2];
    simpl in Hnone; [| discriminate].
  now injection Hnone as ->.
Qed.

Lemma check_signal_needs_warmup_witness :
  (forall k row, nth_error (DataFrame (rising 14)) k = Some row -> (k < 13)%nat ->
                 rsi row = NaN) /\
  fst (check_signal default_config (sample_exchange daily_flat (rising 14) None)
         initial_state) = Ok None.
Proof.
  apply (check_signal_needs_warmup default_config
           (sample_exchange daily_flat (rising 14) None) initial_state (rising 14)).
  - reflexivity.
  - vm_compute. lia.
Defined.

(** ** The volume gate *)

(** X11: when the volume of the decision candle is strictly below the
    configured factor times its average volume (all three finite),
    [check_signal] logs the skip and returns no signal, whatever the trend
    and the candle's shape; the daily trend has been fetched before. *)
Theorem low_volume_rejects (cfg : Config) (ex : Exchange) (s s1 : State)
    (ohlcv : list Candle.t) (trend : Trend) (latest : Row) (v a f : Q) :
  fetch_ohlcv ex (clock s) (SYMBOL cfg) (TIMEFRAME cfg) 100 = Some ohlcv ->
  get_daily_trend ex (SYMBOL cfg) (advance s) = (Ok trend, s1) ->
  (2 <= length ohlcv)%nat ->
  nth_error (DataFrame ohlcv) (length ohlcv - 2) = Some latest ->
  volume latest = Fin v ->
  avg_volume latest = Fin a ->
  MIN_VOLUME_FACTOR cfg = Fin f ->
  v < f * a ->
  check_signal cfg ex s = (Ok None, with_log s1 SkippedLowVolume).
Proof.
  intros Hfetch Htrend Hlen Hlatest Hv Ha Hf Hlow.
  rewrite (check_signal_run cfg ex s s1 ohlcv trend latest) by assumption.
  unfold try_except, entry_decision, low_volume. rewrite Hv, Ha, Hf. cbn [mul lt].
  unfold Qltb. destruct (Qle_bool (Qred (f * a)) v) eqn:Hle.
  - apply Qle_bool_iff in Hle. rewrite Qred_correct in Hle. lra.
  - reflexivity.
Qed.

Lemma low_volume_rejects_witness :
  check_signal default_config (sample_exchange daily_rally quiet_series None)
    initial_state
  = (Ok None, with_log (advance (advance initial_state)) SkippedLowVolume).
Proof.
  eapply (low_volume_rejects default_config
            (sample_exchange daily_rally quiet_series None) initial_state
            (advance (advance initial_state)) quiet_series bullish _ 1 (191 # 20) 1).
  - reflexivity.
  - vm_compute. reflexivity.
  - vm_compute. lia.
  - vm_compute. reflexivity.
  - reflexivity.
  - reflexivity.
  - reflexivity.
  - reflexivity.
Defined.

(** ** What an emitted signal says about the market *)

Lemma entry_decision_conditions (cfg : Config) (ex : Exchange) (trend : Trend)
    (latest : Row) (s1 s' : State) (sig : Signal) :
  entry_decision cfg ex trend latest s1 = (Ok (Some sig), s') ->
  low_volume cfg latest = false /\
  ((trend = bullish /\ side sig = "buy"%string /\
    lt (close latest) (sma_200 latest) = false /\
    ge (wick_ratio_lower latest) (WICK_RATIO cfg) = true /\
    lt (rsi latest) (of_Z (RSI_OVERSOLD cfg)) = true /\
    gt (close latest) (open latest) = true) \/
   (trend = bearish /\ side sig = "sell"%string /\
    ge (wick_ratio_upper latest) (WICK_RATIO cfg) = true /\
    gt (rsi latest) (of_Z (RSI_OVERBOUGHT cfg)) = true /\
    lt (close latest) (open latest) = true)).
Proof.
  unfold entry_decision.
  destruct (low_volume cfg latest); [discriminate |].
  split; [reflexivity |].
  destruct trend; cbn [Trend_eqb andb] in *.
  - destruct (lt (close latest) (sma_200 latest)); [discriminate |].
    destruct (ge (wick_ratio_lower latest) (WICK_RATIO cfg)); [| discriminate].
    destruct (lt (rsi latest) (of_Z (RSI_OVERSOLD cfg))); [| discriminate].
    destruct (gt (close latest) (open latest)); [| discriminate].
    cbn [andb] in H. unfold bind at 1 in H.
    destruct (get_balance cfg ex "USDT" s1) as [[balance | e] s2]; [| discriminate].
    injection H as <- _. left. repeat split; reflexivity.
  - destruct (ge (wick_ratio_upper latest) (WICK_RATIO cfg)); [| discriminate].
    destruct (gt (rsi latest) (of_Z (RSI_OVERBOUGHT cfg))); [| discriminate].
    destruct (lt (close latest) (open latest)); [| discriminate].
    cbn [andb] in H. unfold bind at 1 in H.
    destruct (get_balance cfg ex "ETH" s1) as [[balance | e] s2]; [| discriminate].
    unfold bind at 1 in H.
    destruct (sell_amount cfg balance s2) as [[a | e] s3]; [| discriminate].
    injection H as <- _. right. repeat split; reflexivity.
  - discriminate.
Qed.

(** X12: a signal returned by [check_signal] is a buy under a bullish daily
    trend or a sell under a bearish one, never anything else.  The
    second-to-last candle of the fetched series then passed the volume gate
    and the entry test of that side: for a buy a close not below the long
    moving average, a lower-wick ratio at or above the threshold, an RSI
    below the oversold level and a close above the open; for a sell the
    upper-wick ratio, an RSI above the overbought level and a close below
    the open. *)
Theorem signal_matches_regime (cfg : Config) (ex : Exchange) (s s' : State)
    (sig : Signal) :
  check_signal cfg ex s = (Ok (Some sig), s') ->
  exists ohlcv latest trend,
    fetch_ohlcv ex (clock s) (SYMBOL cfg) (TIMEFRAME cfg) 100 = Some ohlcv /\
    nth_error (DataFrame ohlcv) (length ohlcv - 2) = Some latest /\
    fst (get_daily_trend ex (SYMBOL cfg) (advance s)) = Ok trend /\
    low_volume cfg latest = false /\
    ((trend = bullish /\ side sig = "buy"%string /\
      lt (close latest) (sma_200 latest) = false /\
      ge (wick_ratio_lower latest) (WICK_RATIO cfg) = true /\
      lt (rsi latest) (of_Z (RSI_OVERSOLD cfg)) = true /\
      gt (close latest) (open latest) = true) \/
     (trend = bearish /\ side sig = "sell"%string /\
      ge (wick_ratio_upper latest) (WICK_RATIO cfg) = true /\
      gt (rsi latest) (of_Z (RSI_OVERBOUGHT cfg)) = true /\
      lt (close latest) (open latest) = true)).
Proof.
  intros Hrun.
  apply check_signal_emits in Hrun
    as (ohlcv & latest & trend & s1 & Hfetch & _ & Hlatest & Htrend & Hdecision).
  exists ohlcv, latest, trend.
  split; [exact Hfetch |]. split; [exact Hlatest |].
  split; [now rewrite Htrend |].
  exact (entry_decision_conditions cfg ex trend latest s1 s' sig Hdecision).
Qed.

Lemma signal_matches_regime_witness :
  exists ohlcv latest trend,
    fetch_ohlcv (sample_exchange daily_flat (rising 16) None) (clock initial_state)
      (SYMBOL default_config) (TIMEFRAME default_config) 100 = Some ohlcv /\
    nth_error (DataFrame ohlcv) (length ohlcv - 2) = Some latest /\
    fst (get_daily_trend (sample_exchange daily_flat (rising 16) None)
           (SYMBOL default_config) (advance initial_state)) = Ok trend /\
    low_volume default_config latest = false /\
    ((trend = bullish /\ "sell"%string = "buy"%string /\
      lt (close latest) (sma_200 latest) = false /\
      ge (wick_ratio_lower latest) (WICK_RATIO default_config) = true /\
      lt (rsi latest) (of_Z (RSI_OVERSOLD default_config)) = true /\
      gt (close latest) (open latest) = true) \/
     (trend = bearish /\ "sell"%string = "sell"%string /\
      ge (wick_ratio_upper latest) (WICK_RATIO default_config) = true /\
      gt (rsi latest) (of_Z (RSI_OVERBOUGHT default_config)) = true /\
      lt (close latest) (open latest) = true)).
Proof.
  assert (Hrun :
    check_signal default_config (sample_exchange daily_flat (rising 16) None) initial_state
    = (Ok (Some {| side := "sell"; amount := Fin (2375 # 3) |}),
       with_log (advance (advance initial_state)) BearishReversionSignal)).
  { vm_compute. reflexivity. }
  exact (signal_matches_regime default_config
           (sample_exchange daily_flat (rising 16) None) initial_state _ _ Hrun).
Defined.

(** ** The two sizing rules compared *)

(** X13: for the same balance, risk and stop (stop positive) the sell
    quantity is the buy quantity multiplied by the price: the buy rule
    divides by the price, the sell rule does not. *)
Theorem sell_is_buy_times_price (cfg : Config) (b p R S : Q) (st : State) :
  RISK_PERCENT cfg = Fin R ->
  STOP_LOSS_PCT cfg = Fin S ->
  0 < S -> 0 < p ->
  exists qb qs,
    buy_amount cfg (Fin b) (Fin p) = Fin qb /\
    sell_amount cfg (Fin b) st = (Ok (Fin qs), st) /\
    qs == p * qb.
Proof.
  intros HR HS HSpos Hppos.
  assert (Hs : 0 < S / 100) by (apply Qdiv_pos; lra).
  rewrite (buy_amount_formula cfg R S (R / 100) (S / 100)
             HR HS (Qeq_refl _) (Qeq_refl _) Hs b p Hppos).
  rewrite (sell_amount_formula cfg R S (R / 100) (S / 100)
             HR HS (Qeq_refl _) (Qeq_refl _) Hs b st).
  eexists; eexists. split; [reflexivity |]. split; [reflexivity |].
  rewrite !Qred_correct. field. split; lra.
Qed.

Lemma sell_is_buy_times_price_witness :
  exists qb qs,
    buy_amount default_config (Fin 1000) (Fin 2000) = Fin qb /\
    sell_amount default_config (Fin 1000) initial_state = (Ok (Fin qs), initial_state) /\
    qs == 2000 * qb.
Proof.
  exact (sell_is_buy_times_price default_config 1000 2000 1 (12 # 10) initial_state
           eq_refl eq_refl eq_refl eq_refl).
Defined.

(** ** The anatomy of a candle *)

Lemma Qltb_true (a b : Q) : Qltb a b = true -> a < b.
Proof.
  unfold Qltb. intros H. apply Qnot_le_lt. intros Hle.
  apply Qle_bool_iff in Hle. rewrite Hle in H. discriminate.
Qed.

Lemma Qltb_false (a b : Q) : Qltb a b = false -> b <= a.
Proof.
  unfold Qltb. intros H. apply Qle_bool_iff.
  destruct (Qle_bool b a); [reflexivity | discriminate].
Qed.

Lemma sub_Fin (a b : Q) : sub (Fin a) (Fin b) = Fin (Qred (a + Qred (- b))).
Proof. reflexivity. Qed.

Lemma wick_ratio_finite (x bq : Q) :
  0 <= bq ->
  exists u, div (Fin x) (add (Fin bq) eps) = Fin u /\ u == x / (bq + (1 # 100000000)).
Proof.
  intros Hbq. unfold eps. cbn [add]. unfold div.
  rewrite Qeq_bool_nonzero by (rewrite Qred_correct; lra).
  eexists. split; [reflexivity |]. now rewrite !Qred_correct.
Qed.

(** X14: for a candle with finite prices the body is |close - open|, and
    both wick ratios are finite numbers: the divisor, body + 1e-8, is never
    zero.  The ratios are not negative when the high and the low enclose the
    open and the close, and on a doji (open = close) they are the wicks
    multiplied by 10^8. *)
Theorem candle_anatomy (t : Z) (o h l c : Q) (v a s r : num) :
  let row := enrich_row (Candle.make t (Fin o) (Fin h) (Fin l) (Fin c) v) a s r in
  body row = of_Q (Qabs (c - o)) /\
  exists u w,
    wick_ratio_upper row = Fin u /\
    wick_ratio_lower row = Fin w /\
    (o <= h -> c <= h -> 0 <= u) /\
    (l <= o -> l <= c -> 0 <= w) /\
    (o == c -> u == (h - c) * 100000000 /\ w == (c - l) * 100000000).
Proof.
  intros row. subst row. unfold enrich_row.
  cbn [body wick_ratio_upper wick_ratio_lower Candle.open Candle.close
       Candle.high Candle.low].
  cbn [maximum minimum isnan orb lt]. rewrite (sub_Fin c o). cbn [nabs].
  set (bq := Qred (Qabs (Qred (c + Qred (- o))))).
  assert (Hbody : bq == Qabs (c - o)).
  { unfold bq. rewrite Qred_correct. apply Qabs_wd. rewrite !Qred_correct. reflexivity. }
  split.
  { unfold of_Q, bq. f_equal. apply Qred_complete, Qabs_wd.
    rewrite !Qred_correct. reflexivity. }
  pose proof (Qabs_nonneg (c - o)) as Hnonneg.
  assert (Hbq : 0 <= bq) by now rewrite Hbody.
  assert (Hdoji : o == c -> bq == 0).
  { intros Heq. rewrite Hbody, (Qabs_wd (c - o) 0) by lra. reflexivity. }
  assert (Hupper : exists x, (if Qltb o c then Fin c else Fin o) = Fin x /\
                             (o <= x \/ c <= x) /\ (x == o \/ x == c)).
  { destruct (Qltb o c); eexists; (split; [reflexivity |]); split; auto; lra. }
  assert (Hlower : exists y, (if Qltb c o then Fin c else Fin o) = Fin y /\
                             (y <= o \/ y <= c) /\ (y == o \/ y == c) /\
                             y <= o /\ y <= c).
  { destruct (Qltb c o) eqn:E; eexists; (split; [reflexivity |]).
    - apply Qltb_true in E. repeat split; auto; lra.
    - apply Qltb_false in E. repeat split; auto; lra. }
  assert (Hupper' : forall x, (if Qltb o c then Fin c else Fin o) = Fin x ->
                              o <= x /\ c <= x).
  { intros x. destruct (Qltb o c) eqn:E; intros [= <-].
    - apply Qltb_true in E. lra.
    - apply Qltb_false in E. lra. }
  destruct Hupper as (x & Hx & _ & Hxeq). pose proof (Hupper' x Hx) as [Hxo Hxc].
  destruct Hlower as (y & Hy & _ & Hyeq & Hyo & Hyc).
  rewrite Hx, Hy, !sub_Fin.
  destruct (wick_ratio_finite (Qred (h + Qred (- x))) bq Hbq) as (u & -> & Hu).
  destruct (wick_ratio_finite (Qred (y + Qred (- l))) bq Hbq) as (w & -> & Hw).
  rewrite !Qred_correct in Hu, Hw.
  exists u, w. split; [reflexivity |]. split; [reflexivity |].
  split; [| split].
  - intros Hoh Hch. rewrite Hu. apply Qle_shift_div_l; [lra |].
    destruct Hxeq as [E | E]; rewrite E; lra.
  - intros Hlo Hlc. rewrite Hw. apply Qle_shift_div_l; [lra |].
    destruct Hyeq as [E | E]; rewrite E; lra.
  - intros Heq. rewrite Hu, Hw, (Hdoji Heq).
    assert (Ex : x == c) by (destruct Hxeq as [E | E]; rewrite E; lra).
    assert (Ey : y == c) by (destruct Hyeq as [E | E]; rewrite E; lra).
    rewrite Ex, Ey. split; field.
Qed.

(** A doji with a high 3 above and a low 1 below its close: the ratios are
    3 * 10^8 and 10^8. *)
Lemma candle_anatomy_witness :
  exists u w,
    wick_ratio_upper
      (enrich_row (Candle.make 0 (Fin 10) (Fin 13) (Fin 9) (Fin 10) (Fin 1)) NaN NaN NaN)
    = Fin u /\
    wick_ratio_lower
      (enrich_row (Candle.make 0 (Fin 10) (Fin 13) (Fin 9) (Fin 10) (Fin 1)) NaN NaN NaN)
    = Fin w /\
    u == (13 - 10) * 100000000 /\ w == (10 - 9) * 100000000.
Proof.
  destruct (candle_anatomy 0 10 13 9 10 (Fin 1) NaN NaN NaN)
    as (_ & u & w & Hu & Hw & _ & _ & Hdoji).
  exists u, w. split; [exact Hu |]. split; [exact Hw |].
  exact (Hdoji (Qeq_refl 10)).
Defined.

(** ** The evaluator only reads *)

Section ReadsOnly.

Lemma reads_only_silent {A} (m : M A) :
  (forall s, snd (m s) = s) -> reads_only 0 m.
Proof. intros H s. rewrite H. repeat split; lia. Qed.

Lemma reads_only_ret {A} (a : A) : reads_only 0 (ret a).
Proof. now apply reads_only_silent. Qed.

Lemma reads_only_raise {A} (e : exn) : reads_only 0 (@raise A e).
Proof. now apply reads_only_silent. Qed.

Lemma reads_only_answer {A} (e : exn) (o : option A) : reads_only 0 (answer e o).
Proof. destruct o; [apply reads_only_ret | apply reads_only_raise]. Qed.

Lemma reads_only_log (m : LogMsg) : reads_only 0 (log m).
Proof. intros s. simpl. repeat split; lia. Qed.

Lemma reads_only_tick : reads_only 1 tick.
Proof. intros s. simpl. repeat split; lia. Qed.

Lemma reads_only_weaken {A} (n n' : nat) (m : M A) :
  (n <= n')%nat -> reads_only n m -> reads_only n' m.
Proof.
  intros Hn H s. destruct (H s) as (Hs & Hp & Hc). repeat split; try assumption; lia.
Qed.

Lemma reads_only_bind {A B} (a b : nat) (m : M A) (k : A -> M B) :
  reads_only a m -> (forall x, reads_only b (k x)) -> reads_only (a + b) (bind m k).
Proof.
  intros Hm Hk s. unfold bind. destruct (Hm s) as (Hs & Hp & Hc).
  destruct (m s) as [[x | e] s1]; simpl in *.
  - destruct (Hk x s1) as (Hs' & Hp' & Hc').
    rewrite Hs', Hp', Hs, Hp. repeat split; lia.
  - repeat split; try assumption; lia.
Qed.

Lemma reads_only_try_except {A} (a b : nat) (m : M A) (handler : exn -> M A) :
  reads_only a m -> (forall e, reads_only b (handler e)) ->
  reads_only (a + b) (try_except m handler).
Proof.
  intros Hm Hh s. unfold try_except. destruct (Hm s) as (Hs & Hp & Hc).
  destruct (m s) as [[x | e] s1]; simpl in *.
  - repeat split; try assumption; lia.
  - destruct (Hh e s1) as (Hs' & Hp' & Hc').
    rewrite Hs', Hp', Hs, Hp. repeat split; lia.
Qed.

End ReadsOnly.

Lemma reads_only_logged {A} (m : LogMsg) (a : A) : reads_only 0 (log m ;; ret a).
Proof. apply (reads_only_bind 0 0); [apply reads_only_log | intros; apply reads_only_ret]. Qed.

Lemma reads_only_get_data (ex : Exchange) (symbol timeframe : string) (limit : nat) :
  reads_only 1 (get_data ex symbol timeframe limit).
Proof.
  unfold get_data. apply (reads_only_bind 1 0); [apply reads_only_tick |]. intros t.
  apply (reads_only_bind 0 0); [apply reads_only_answer | intros; apply reads_only_ret].
Qed.

Lemma reads_only_iloc (df : list Row) (k : Z) : reads_only 0 (iloc df k).
Proof.
  unfold iloc. cbv zeta.
  destruct (_ <? 0)%Z; [apply reads_only_raise | apply reads_only_answer].
Qed.

Lemma reads_only_get_daily_trend (ex : Exchange) (symbol : string) :
  reads_only 1 (get_daily_trend ex symbol).
Proof.
  unfold get_daily_trend. apply (reads_only_try_except 1 0).
  - apply (reads_only_bind 1 0); [apply reads_only_get_data |]. intros df.
    apply (reads_only_bind 0 0); [apply reads_only_iloc |]. intros latest. cbv zeta.
    destruct (isnan _); [| destruct (gt _ _)]; apply reads_only_ret.
  - intros e. apply reads_only_logged.
Qed.

Lemma reads_only_get_balance (cfg : Config) (ex : Exchange) (asset : string) :
  reads_only 1 (get_balance cfg ex asset).
Proof.
  unfold get_balance. destruct (PAPER_TRADING cfg).
  - apply (reads_only_weaken 0); [lia | apply reads_only_ret].
  - apply (reads_only_try_except 1 0).
    + apply (reads_only_bind 1 0); [apply reads_only_tick |]. intros t.
      apply (reads_only_bind 0 0); [apply reads_only_answer | intros; apply reads_only_ret].
    + intros e. apply reads_only_logged.
Qed.

Lemma reads_only_sell_amount (cfg : Config) (balance : num) :
  reads_only 0 (sell_amount cfg balance).
Proof.
  unfold sell_amount, py_truediv.
  apply (reads_only_bind 0 0); [| intros; apply reads_only_ret].
  destruct (div (STOP_LOSS_PCT cfg) hundred); try apply reads_only_ret.
  destruct (Qeq_bool q 0); [apply reads_only_raise | apply reads_only_ret].
Qed.

Lemma reads_only_entry_decision (cfg : Config) (ex : Exchange) (trend : Trend)
    (latest : Row) :
  reads_only 1 (entry_decision cfg ex trend latest).
Proof.
  unfold entry_decision.
  destruct (low_volume cfg latest).
  { apply (reads_only_weaken 0); [lia | apply reads_only_logged]. }
  destruct (Trend_eqb trend bullish && lt (close latest) (sma_200 latest)).
  { apply (reads_only_weaken 0); [lia | apply reads_only_logged]. }
  destruct (Trend_eqb trend bullish).
  { destruct (_ && _); [| apply (reads_only_weaken 0); [lia | apply reads_only_ret]].
    apply (reads_only_bind 1 0); [apply reads_only_get_balance |]. intros balance.
    cbv zeta. apply reads_only_logged. }
  destruct (Trend_eqb trend bearish);
    [| apply (reads_only_weaken 0); [lia | apply reads_only_ret]].
  destruct (_ && _); [| apply (reads_only_weaken 0); [lia | apply reads_only_ret]].
  apply (reads_only_bind 1 0); [apply reads_only_get_balance |]. intros balance.
  apply (reads_only_bind 0 0); [apply reads_only_sell_amount |]. intros amount.
  apply reads_only_logged.
Qed.

Lemma reads_only_check_signal (cfg : Config) (ex : Exchange) :
  reads_only 3 (check_signal cfg ex).
Proof.
  unfold check_signal. apply (reads_only_try_except 3 0).
  - apply (reads_only_bind 1 2); [apply reads_only_get_data |]. intros df.
    apply (reads_only_bind 1 1); [apply reads_only_get_daily_trend |]. intros trend.
    apply (reads_only_bind 0 1); [apply reads_only_iloc |]. intros latest.
    apply reads_only_entry_decision.
  - intros e. apply reads_only_logged.
Qed.

(** X15: [check_signal] only evaluates: in every configuration and from
    every state it hands no order to the exchange and posts no alert, and it
    makes at least one and at most three calls to the collaborators (the
    two candle fetches and one balance fetch). *)
Theorem check_signal_reads_only (cfg : Config) (ex : Exchange) (s : State) :
  submitted (snd (check_signal cfg ex s)) = submitted s /\
  posted (snd (check_signal cfg ex s)) = posted s /\
  (clock s + 1 <= clock (snd (check_signal cfg ex s)) <= clock s + 3)%nat.
Proof.
  destruct (reads_only_check_signal cfg ex s) as (Hs & Hp & Hc).
  split; [exact Hs |]. split; [exact Hp |]. split; [| lia].
  unfold check_signal, try_except, bind. rewrite get_data_run.
  destruct (fetch_ohlcv ex (clock s) (SYMBOL cfg) (TIMEFRAME cfg) 100) as [ohlcv |].
  - match goal with |- context [match ?m (advance s) with _ => _ end] =>
      pose proof (reads_only_bind 1 1 _ _ (reads_only_get_daily_trend ex (SYMBOL cfg))
                    (fun trend => reads_only_bind 0 1 _ _
                       (reads_only_iloc (DataFrame ohlcv) (-2))
                       (fun latest => reads_only_entry_decision cfg ex trend latest))
                    (advance s)) as (_ & _ & Hrest)
    end.
    unfold bind in Hrest.
    destruct (get_daily_trend ex (SYMBOL cfg) (advance s)) as [[trend | e] s1].
    + destruct (iloc (DataFrame ohlcv) (-2) s1) as [[latest | e] s2].
      * destruct (entry_decision cfg ex trend latest s2) as [[r | e] s3];
          simpl in *; lia.
      * simpl in *. lia.
    + simpl in *. lia.
  - simpl. lia.
Qed.

(** ** The run loop *)

Lemma place_order_ok (cfg : Config) (ex : Exchange) (side symbol : string)
    (amount : num) (s : State) :
  exists b, fst (place_order cfg ex side symbol amount s) = Ok b.
Proof.
  destruct (PAPER_TRADING cfg) eqn:Hmode.
  - exists true. unfold place_order. rewrite Hmode. unfold bind at 1. cbn [log].
    unfold bind at 1.
    match goal with |- context [send_alert cfg ex ?a ?st] =>
      pose proof (send_alert_ok cfg ex a st) as Hok;
      destruct (send_alert cfg ex a st) as [[[] | e] s2] end;
      [reflexivity | discriminate].
  - rewrite (place_order_live_run cfg ex side symbol amount s Hmode). cbv zeta.
    destruct (if String.eqb side "buy" then _ else _) as [[price | |] |];
      eexists; reflexivity.
Qed.

Lemma place_order_paper_submitted (cfg : Config) (ex : Exchange) (side symbol : string)
    (amount : num) (s : State) :
  PAPER_TRADING cfg = true ->
  submitted (snd (place_order cfg ex side symbol amount s)) = submitted s.
Proof.
  intros Hmode. unfold place_order. rewrite Hmode. unfold bind at 1. cbn [log].
  unfold bind at 1.
  match goal with |- context [send_alert cfg ex ?a ?st] =>
    pose proof (send_alert_submitted cfg ex a st) as Hsub;
    destruct (send_alert cfg ex a st) as [[[] | e] s2] end; exact Hsub.
Qed.

Lemma send_main_alert_run (cfg : Config) (ex : Exchange) (message : MainAlert) (l : Loop) :
  exists l',
    send_main_alert cfg ex message l = (Ok tt, l') /\
    submitted (bot l') = submitted (bot l) /\
    posted (bot l') = posted (bot l).
Proof.
  unfold send_main_alert. destruct (_ && _).
  - cbv [try_exceptL bindL call tick emit raise log].
    destruct (requests_post ex (clock (bot l))); eexists; repeat split.
  - exists l. repeat split.
Qed.

Lemma main_iteration_run (cfg : Config) (ex : Exchange) (l : Loop) :
  exists signal s1,
    check_signal cfg ex (bot l) = (Ok signal, s1) /\
    main_iteration cfg ex l =
    (Ok tt,
     match signal with
     | Some sig =>
         {| bot := snd (place_order cfg ex (side sig) (SYMBOL cfg) (amount sig) s1);
            trace := trace l ++ [Slept 600; Slept 300] |}
     | None => {| bot := s1; trace := trace l ++ [NoSignal; Slept 300] |}
     end).
Proof.
  destruct (check_signal_returns cfg ex (bot l)) as (signal & s1 & Hrun).
  exists signal, s1. split; [exact Hrun |].
  unfold main_iteration, try_exceptL. unfold bindL at 1. unfold call at 1. rewrite Hrun.
  destruct signal as [sig |].
  - cbv [bindL call emit]. cbn [bot trace].
    destruct (place_order_ok cfg ex (side sig) (SYMBOL cfg) (amount sig) s1) as (b & Hb).
    destruct (place_order cfg ex (side sig) (SYMBOL cfg) (amount sig) s1) as [[b' | e] s2];
      [| discriminate].
    cbn [snd bot trace]. now rewrite <- app_assoc.
  - cbv [bindL emit]. cbn [bot trace]. now rewrite <- app_assoc.
Qed.

(** X16: one turn of the loop never raises and never takes the error path
    (no 60-second pause): [check_signal] returns; on a signal one order is
    placed on the configured symbol and the loop pauses 600 and then 300
    seconds, whether or not the order succeeded; without a signal it logs
    "No signal" and pauses 300 seconds. *)
Theorem main_iteration_outcome (cfg : Config) (ex : Exchange) (l : Loop) :
  exists signal s1 l',
    check_signal cfg ex (bot l) = (Ok signal, s1) /\
    main_iteration cfg ex l = (Ok tt, l') /\
    ~ In (Slept 60) (skipn (length (trace l)) (trace l')) /\
    match signal with
    | Some sig =>
        bot l' = snd (place_order cfg ex (side sig) (SYMBOL cfg) (amount sig) s1) /\
        trace l' = trace l ++ [Slept 600; Slept 300]
    | None =>
        bot l' = s1 /\ trace l' = trace l ++ [NoSignal; Slept 300]
    end.
Proof.
  destruct (main_iteration_run cfg ex l) as (signal & s1 & Hrun & Hturn).
  exists signal, s1. eexists. split; [exact Hrun |]. split; [exact Hturn |].
  destruct signal as [sig |]; cbn [bot trace];
    (split; [| split; reflexivity]);
    rewrite skipn_app, skipn_all, Nat.sub_diag; simpl;
    intros [H | [H | []]]; discriminate.
Qed.

Lemma main_loop_paper (cfg : Config) (ex : Exchange) (turns : nat) :
  PAPER_TRADING cfg = true ->
  forall l, exists l',
    main_loop cfg ex turns l = (Ok tt, l') /\
    submitted (bot l') = submitted (bot l).
Proof.
  intros Hmode. induction turns as [| n IH]; intros l.
  - exists l. split; reflexivity.
  - destruct (main_iteration_run cfg ex l) as (signal & s1 & Hrun & Hturn).
    cbn [main_loop]. unfold bindL. rewrite Hturn.
    match goal with |- context [main_loop cfg ex n ?l1] =>
      destruct (IH l1) as (l' & Hloop & Hsub) end.
    exists l'. split; [exact Hloop |]. rewrite Hsub.
    destruct (reads_only_check_signal cfg ex (bot l)) as (Hs & _ & _).
    rewrite Hrun in Hs. cbn [snd] in Hs.
    destruct signal as [sig |]; cbn [bot].
    + now rewrite place_order_paper_submitted.
    + exact Hs.
Qed.

(** X17: in paper-trading mode the program never hands an order to the
    exchange: after the start-up and any number of turns of the loop, which
    all complete, the list of submitted orders is unchanged. *)
Theorem paper_main_never_submits (cfg : Config) (ex : Exchange) (turns : nat) (l : Loop) :
  PAPER_TRADING cfg = true ->
  exists l',
    main cfg ex turns l = (Ok tt, l') /\
    submitted (bot l') = submitted (bot l).
Proof.
  intros Hmode. unfold main, main_start.
  unfold bindL at 1. unfold bindL at 1. unfold bindL at 1. cbn [emit].
  match goal with |- context [send_main_alert cfg ex ?a ?l0] =>
    destruct (send_main_alert_run cfg ex a l0) as (l1 & -> & Hsub1 & _) end.
  destruct (main_loop_paper cfg ex turns Hmode l1) as (l' & Hloop & Hsub).
  exists l'. split; [exact Hloop |]. now rewrite Hsub, Hsub1.
Qed.

Lemma paper_main_never_submits_witness :
  exists l',
    main default_config (sample_exchange daily_flat (rising 16) None) 3 initial_loop
    = (Ok tt, l') /\
    submitted (bot l') = submitted (bot initial_loop).
Proof.
  exact (paper_main_never_submits default_config
           (sample_exchange daily_flat (rising 16) None) 3 initial_loop eq_refl).
Defined.

(** X18: against an exchange that returns at most the requested number of
    candles, every turn of the loop ends without a signal: after any number
    of turns the loop has only logged "No signal" and paused 300 seconds per
    turn, no order was submitted and no alert posted. *)
Theorem limited_exchange_loop_idles (cfg : Config) (ex : Exchange) (turns : nat) :
  honours_limit ex ->
  forall l, exists l',
    main_loop cfg ex turns l = (Ok tt, l') /\
    trace l' = trace l ++ concat (repeat [NoSignal; Slept 300] turns) /\
    submitted (bot l') = submitted (bot l) /\
    posted (bot l') = posted (bot l).
Proof.
  intros Hlimit. induction turns as [| n IH]; intros l.
  - exists l. cbn [repeat concat]. rewrite app_nil_r. repeat split.
  - destruct (main_iteration_run cfg ex l) as (signal & s1 & Hrun & Hturn).
    assert (Hnone : fst (check_signal cfg ex (bot l)) = Ok None).
    { apply check_signal_trend_unknown, get_daily_trend_unfilled.
      intros ohlcv Hfetch. apply Hlimit in Hfetch. lia. }
    rewrite Hrun in Hnone. cbn [fst] in Hnone. injection Hnone as ->.
    cbn [main_loop]. unfold bindL. rewrite Hturn.
    destruct (IH {| bot := s1; trace := trace l ++ [NoSignal; Slept 300] |})
      as (l' & Hloop & Htrace & Hsub & Hpost).
    exists l'. split; [exact Hloop |]. cbn [bot trace] in *.
    destruct (reads_only_check_signal cfg ex (bot l)) as (Hs & Hp & _).
    rewrite Hrun in Hs, Hp. cbn [snd] in Hs, Hp.
    split; [| split; congruence].
    rewrite Htrace. cbn [repeat concat]. now rewrite <- app_assoc.
Qed.

Lemma limited_exchange_loop_idles_witness :
  honours_limit limited_exchange /\
  exists l',
    main_loop default_config limited_exchange 2 initial_loop = (Ok tt, l') /\
    trace l' = trace initial_loop ++ concat (repeat [NoSignal; Slept 300] 2) /\
    submitted (bot l') = submitted (bot initial_loop) /\
    posted (bot l') = posted (bot initial_loop).
Proof.
  assert (H : honours_limit limited_exchange).
  { intros t symbol timeframe limit ohlcv [= <-]. apply firstn_le_length. }
  split; [exact H |].
  exact (limited_exchange_loop_idles default_config limited_exchange 2 H initial_loop).
Defined.

(** ** Paper trading and the balance *)

Lemma get_daily_trend_clock (ex : Exchange) (symbol : string) (s : State) :
  clock (snd (get_daily_trend ex symbol s)) = S (clock s).
Proof.
  unfold get_daily_trend, try_except, bind. rewrite get_data_run.
  destruct (fetch_ohlcv ex (clock s) symbol "1d" 50) as [daily |]; [| reflexivity].
  rewrite iloc_last. destruct (DataFrame daily) as [| r0 df0]; [reflexivity |].
  destruct (nth_error _ _) as [latest |]; [| reflexivity].
  cbv zeta. destruct (isnan _); [| destruct (gt _ _)]; reflexivity.
Qed.

Lemma sell_amount_pure (cfg : Config) (balance : num) (st : State) :
  sell_amount cfg balance st = (fst (sell_amount cfg balance initial_state), st).
Proof.
  unfold sell_amount, py_truediv, bind.
  destruct (div (STOP_LOSS_PCT cfg) hundred) as [q | | |]; try reflexivity.
  destruct (Qeq_bool q 0); reflexivity.
Qed.

Lemma entry_decision_paper_clock (cfg : Config) (ex : Exchange) (trend : Trend)
    (latest : Row) (s : State) :
  PAPER_TRADING cfg = true ->
  clock (snd (entry_decision cfg ex trend latest s)) = clock s.
Proof.
  intros Hmode. unfold entry_decision, get_balance. rewrite Hmode.
  destruct (low_volume cfg latest); [reflexivity |].
  destruct (Trend_eqb trend bullish && lt (close latest) (sma_200 latest));
    [reflexivity |].
  destruct (Trend_eqb trend bullish).
  { destruct (_ && _); reflexivity. }
  destruct (Trend_eqb trend bearish); [| reflexivity].
  destruct (_ && _); [| reflexivity].
  unfold bind at 1. cbn [ret]. unfold bind at 1.
  rewrite sell_amount_pure.
  destruct (fst (sell_amount cfg (of_Z 1000) initial_state)); reflexivity.
Qed.

(** X19: on paper, a signal returned by [check_signal] is sized from a
    balance of 1000 (and, for a buy, the close of the decision candle), and
    no balance is fetched: the evaluation made exactly two calls to the
    exchange, the two candle fetches. *)
Theorem paper_signal_sizing (cfg : Config) (ex : Exchange) (s s' : State) (sig : Signal) :
  PAPER_TRADING cfg = true ->
  check_signal cfg ex s = (Ok (Some sig), s') ->
  clock s' = (clock s + 2)%nat /\
  exists ohlcv latest,
    fetch_ohlcv ex (clock s) (SYMBOL cfg) (TIMEFRAME cfg) 100 = Some ohlcv /\
    nth_error (DataFrame ohlcv) (length ohlcv - 2) = Some latest /\
    ((side sig = "buy"%string /\
      amount sig = buy_amount cfg (of_Z 1000) (close latest)) \/
     (side sig = "sell"%string /\
      forall st, sell_amount cfg (of_Z 1000) st = (Ok (amount sig), st))).
Proof.
  intros Hmode Hrun.
  apply check_signal_emits in Hrun
    as (ohlcv & latest & trend & s1 & Hfetch & _ & Hlatest & Htrend & Hdecision).
  split.
  - pose proof (entry_decision_paper_clock cfg ex trend latest s1 Hmode) as Hc.
    rewrite Hdecision in Hc. cbn [snd] in Hc.
    pose proof (get_daily_trend_clock ex (SYMBOL cfg) (advance s)) as Hc1.
    rewrite Htrend in Hc1. cbn [snd] in Hc1. simpl in Hc1. lia.
  - exists ohlcv, latest. split; [exact Hfetch |]. split; [exact Hlatest |].
    assert (Hbalance : forall asset st, get_balance cfg ex asset st = (Ok (of_Z 1000), st)).
    { intros asset st. unfold get_balance. now rewrite Hmode. }
    apply entry_decision_emits in Hdecision
      as [(_ & balance & s2 & Hget & ->)
         | (_ & balance & s2 & a & s3 & Hget & Hsell & ->)];
      rewrite Hbalance in Hget; injection Hget as <- <-.
    + left. split; reflexivity.
    + right. split; [reflexivity |]. intros st. cbn [amount].
      rewrite sell_amount_pure in Hsell. injection Hsell as Hsell _.
      now rewrite sell_amount_pure, Hsell.
Qed.

Lemma paper_signal_sizing_witness :
  clock (with_log (advance (advance initial_state)) BearishReversionSignal)
  = (clock initial_state + 2)%nat /\
  exists ohlcv latest,
    fetch_ohlcv (sample_exchange daily_flat (rising 16) None) (clock initial_state)
      (SYMBOL default_config) (TIMEFRAME default_config) 100 = Some ohlcv /\
    nth_error (DataFrame ohlcv) (length ohlcv - 2) = Some latest /\
    (("sell"%string = "buy"%string /\
      Fin (2375 # 3) = buy_amount default_config (of_Z 1000) (close latest)) \/
     ("sell"%string = "sell"%string /\
      forall st, sell_amount default_config (of_Z 1000) st = (Ok (Fin (2375 # 3)), st))).
Proof.
  assert (Hrun :
    check_signal default_config (sample_exchange daily_flat (rising 16) None) initial_state
    = (Ok (Some {| side := "sell"; amount := Fin (2375 # 3) |}),
       with_log (advance (advance initial_state)) BearishReversionSignal)).
  { vm_compute. reflexivity. }
  exact (paper_signal_sizing default_config
           (sample_exchange daily_flat (rising 16) None) initial_state _ _ eq_refl Hrun).
Defined.

(** ** The RSI without gains *)

(** X20: wherever the gain average is exactly zero and the loss average is
    positive, the RSI is exactly 0. *)
Theorem rsi_no_gain (series : list num) (period i : nat) (g l : Q) :
  (i < length series)%nat ->
  nth i (avg_gain series period) NaN = Fin g ->
  nth i (avg_loss series period) NaN = Fin l ->
  g == 0 -> 0 < l ->
  nth i (calculate_rsi series period) NaN = Fin 0.
Proof.
  intros Hi Hgain Hloss Hg Hl.
  rewrite nth_calculate_rsi, Hgain, Hloss by assumption.
  unfold rsi_cell, div at 2. rewrite (Qeq_bool_nonzero l) by lra.
  cbn [one of_Z add]. unfold div.
  rewrite Qeq_bool_nonzero
    by (rewrite !Qred_correct, Hg; change (inject_Z 1) with 1; unfold Qdiv; lra).
  cbn [hundred of_Z sub neg add].
  change (Fin 0) with (Fin (Qred 0)). f_equal. apply Qred_complete.
  rewrite !Qred_correct, Hg. change (inject_Z 100) with 100. change (inject_Z 1) with 1.
  field. lra.
Qed.

Lemma rsi_no_gain_witness :
  nth 14 (calculate_rsi (map Candle.close (falling 16)) 14) NaN = Fin 0.
Proof.
  apply (rsi_no_gain (map Candle.close (falling 16)) 14 14 0 1).
  - vm_compute. lia.
  - vm_compute. reflexivity.
  - vm_compute. reflexivity.
  - reflexivity.
  - reflexivity.
Defined.

(** ** The raw columns *)



